(** * mongoz: the install-and-launch orchestrator [startMongo]

    A shallow embedding of [src/index.ts].  The asynchronous function
    [startMongo] is sequential (every step is awaited), so it is modelled
    as a state-and-error monad over an explicit [World]: the file system,
    the table of open descriptors, the child processes, the registered
    shutdown hooks and the chronological trace of calls made to the
    packages the code imports ([fs-extra], [download], [decompress],
    [execa], [ora], [consola], [node-graceful-shutdown]).

    JavaScript objects used as dictionaries ([opts], [process.env]) are
    [gmap]s keyed by strings. *)

From Stdlib Require Import ZArith Ascii DecimalString.
From Stdlib Require String.
From stdpp Require Import gmap strings list fin_maps.

(** ** JavaScript strings *)

Module Js.

(** [s.split(sep)] for a one-character separator: every occurrence of the
    separator cuts, so consecutive separators give empty pieces and the
    empty string gives one empty piece. *)
Fixpoint split (sep : ascii) (s : string) : list string :=
  match s with
  | EmptyString => [EmptyString]
  | String a s' =>
      if Ascii.eqb a sep then EmptyString :: split sep s'
      else match split sep s' with
           | w :: ws => String a w :: ws
           | [] => [String a EmptyString]
           end
  end.

(** The character [c] does not occur in [s]. *)
Fixpoint free_of (c : ascii) (s : string) : bool :=
  match s with
  | EmptyString => true
  | String a s' => negb (Ascii.eqb a c) && free_of c s'
  end.

(** [pieces.join(sep)]. *)
Fixpoint join (sep : string) (l : list string) : string :=
  match l with
  | [] => ""
  | [w] => w
  | w :: ws => w +:+ sep +:+ join sep ws
  end.

Fixpoint drop (n : nat) (s : string) : string :=
  match n, s with
  | O, _ => s
  | S n', String _ s' => drop n' s'
  | S _, EmptyString => EmptyString
  end.

(** First occurrence of [pat] in [s]: the text before it and the text
    after it. *)
Fixpoint cut (pat s : string) : option (string * string) :=
  if String.prefix pat s then Some ("", drop (String.length pat) s)
  else match s with
       | EmptyString => None
       | String a s' =>
           match cut pat s' with
           | Some (b, e) => Some (String a b, e)
           | None => None
           end
       end.

(** ECMAScript [GetSubstitution] for a string pattern (no capture groups):
    in the replacement text [$$] stands for a dollar sign, [$&] for the
    matched text, [$`] for the text before the match and [$'] for the text
    after it; any other dollar sign is literal. *)
Fixpoint substitution (matched before after r : string) : string :=
  match r with
  | EmptyString => EmptyString
  | String a r' =>
      if Ascii.eqb a "$" then
        match r' with
        | String c r'' =>
            if Ascii.eqb c "$" then
              String "$" (substitution matched before after r'')
            else if Ascii.eqb c "&" then
              matched +:+ substitution matched before after r''
            else if Ascii.eqb c "`" then
              before +:+ substitution matched before after r''
            else if Ascii.eqb c "'" then
              after +:+ substitution matched before after r''
            else String a (substitution matched before after r')
        | EmptyString => String a EmptyString
        end
      else String a (substitution matched before after r')
  end.

(** [s.replace(pat, r)] with a string pattern: only the first occurrence
    is replaced. *)
Definition replace (s pat r : string) : string :=
  match cut pat s with
  | None => s
  | Some (b, e) => b +:+ substitution pat b e r +:+ e
  end.

(** The values that reach [startMongo]: [MongoOptions] allows strings,
    numbers and string arrays, and an optional key may hold [undefined].
    [num] covers the integer-valued numbers below 10^21 in magnitude,
    which JavaScript prints in plain decimal. *)
Inductive val :=
  | undefined
  | str (s : string)
  | num (z : Z)
  | arr (l : list string).

#[global] Instance val_eq_dec : EqDecision val.
Proof. solve_decision. Defined.

(** [v + ''] and template-literal interpolation. *)
Definition to_string (v : val) : string :=
  match v with
  | undefined => "undefined"
  | str s => s
  | num z => NilEmpty.string_of_int (Z.to_int z)
  | arr l => join "," l
  end.

(** Truthiness of an environment entry: [process.env.X || d] takes [d]
    when [X] is unset or set to the empty string. *)
Definition or_else (x : option string) (d : val) : val :=
  match x with
  | Some (String a s) => str (String a s)
  | _ => d
  end.

End Js.

(** ** Rejections

    What the promise returned by [startMongo] can be rejected with. *)
Inductive error :=
  | Error (msg : string)            (* [throw new Error(msg)] in the source *)
  | TypeError (what : string)       (* [path.resolve] on a non-string *)
  | FsError (op path : string)      (* a rejected [fs-extra] call *)
  | DownloadError (url : string)    (* the [download] promise rejected *)
  | DecompressError (file : string) (* the [decompress] promise rejected *).

(** ** Node's [path] module (POSIX flavour) *)

Module Path.

(** [normalizeString]: empty and [.] segments vanish, [..] removes the
    segment before it; above the root it is dropped, or kept when the path
    is relative. *)
Definition norm_step (above : bool) (acc : list string) (seg : string)
  : list string :=
  if bool_decide (seg = "" ∨ seg = ".") then acc
  else if bool_decide (seg = "..") then
    match last acc with
    | None => if above then [".."] else []
    | Some l =>
        if bool_decide (l = "..") then acc ++ [".."]
        else take (length acc - 1) acc
    end
  else acc ++ [seg].

Definition norm_segs (above : bool) (segs : list string) : list string :=
  foldl (norm_step above) [] segs.

Definition segments (p : string) : list string := Js.split "/" p.

Definition is_absolute (p : string) : bool :=
  match p with
  | String "/" _ => true
  | _ => false
  end.

(** The right-to-left loop of [path.resolve]: arguments are visited from
    the last one until an absolute one is met; every visited argument must
    be a string, empty ones are skipped.  The list given here is already in
    visiting order; the result is the visited text in path order and
    whether it is absolute. *)
Fixpoint visit (rargs : list Js.val) : error + (list string * bool) :=
  match rargs with
  | [] => inr ([], false)
  | Js.str p :: rest =>
      if bool_decide (p = "") then visit rest
      else if is_absolute p then inr ([p], true)
      else match visit rest with
           | inr (ps, a) => inr (ps ++ [p], a)
           | inl e => inl e
           end
  | v :: _ =>
      inl (TypeError ("The path argument must be of type string. Received "
                      +:+ Js.to_string v))
  end.

(** [path.resolve(...args)]; [cwd] is [process.cwd()], consulted only when
    no argument is absolute. *)
Definition resolve (cwd : string) (args : list Js.val) : error + string :=
  match visit (reverse args ++ [Js.str cwd]) with
  | inl e => inl e
  | inr (ps, a) =>
      let segs := norm_segs (negb a) (ps ≫= segments) in
      inr (if a then "/" +:+ Js.join "/" segs
           else match segs with [] => "." | _ => Js.join "/" segs end)
  end.

(** [path.resolve] on strings only, which cannot throw. *)
Definition resolve_strings (cwd : string) (args : list string) : string :=
  match resolve cwd (Js.str <$> args) with
  | inr p => p
  | inl _ => "."
  end.

(** The segments of an absolute, normalized path: the key under which the
    file system stores it. *)
Definition key (p : string) : list string :=
  norm_segs false (segments p).

(** [path.join(a, b)], as [download] and [decompress] use it below an
    absolute directory. *)
Definition join (a b : string) : string :=
  "/" +:+ Js.join "/" (key (a +:+ "/" +:+ b)).

(** The last segment of a path that is not empty (trailing slashes do not
    count). *)
Definition basename (p : string) : string :=
  default "" (last (filter (λ s, s ≠ "") (segments p))).

(** The text from the last dot of [s] on, if [s] has a dot. *)
Fixpoint from_last_dot (s : string) : option string :=
  match s with
  | EmptyString => None
  | String a s' =>
      match from_last_dot s' with
      | Some e => Some e
      | None => if Ascii.eqb a "." then Some s else None
      end
  end.

(** [path.extname(p)]: the extension of the last segment, from its last
    dot; empty when there is no dot, when the only dot is the first
    character of the segment, or when the segment is [..]. *)
Definition extname (p : string) : string :=
  let b := basename p in
  match from_last_dot b with
  | None => ""
  | Some e =>
      if bool_decide (e = b ∨ b = "..") then "" else e
  end.

(** A plain segment: a name that is not empty, not [.] or [..], and has
    no slash. *)
Definition plain (s : string) : bool :=
  bool_decide (s ≠ "" ∧ s ≠ "." ∧ s ≠ "..") && Js.free_of "/" s.

(** The absolute path with the given segments. *)
Definition of_segments (segs : list string) : string :=
  "/" +:+ Js.join "/" segs.

End Path.

(** ** The formula ([./formula], taken as a parameter) *)

Module Platform.
Record t := { name : string; source : string }.
End Platform.

Module Formula.
Record t := {
  name : string;
  version : string;
  exec : string;
  execArgs : string;
  port : Js.val;
  platforms : list Platform.t
}.
End Formula.

(** ** The world the orchestrator acts on *)

(** A file-system entry.  Paths are stored by their segments below the
    root, which always exists and is a directory. *)
Inductive node :=
  | Dir
  | File (data : string).

Abbreviation tree := (gmap (list string) node).

(** Outcome of one transfer to disk: it completes with the whole body, or
    it breaks (the connection drops, the write fails midway), possibly
    leaving a truncated file behind. *)
Inductive transfer :=
  | Complete (body : string)
  | Broken (left : option string).

(** What the host process provides: the environment, the platform name,
    [os.tmpdir()], [process.cwd()], the network and the archive decoders
    ([None] for an archive they reject). *)
Record host := {
  env : gmap string string;
  platform : string;
  tmpdir : string;
  cwd : string;
  fetch : string → transfer;
  unpack : string → option (list (string * node))
}.

(** Calls made to the imported packages, in the order they happen. *)
Inductive event :=
  | EvMkdirp (p : string)
  | EvExists (p : string)
  | EvRemove (p : string)
  | EvOpen (p flags : string)
  | EvDownload (url dir filename : string)
  | EvDecompress (file dir : string) (strip : nat)
  | EvSpinner (text : string)
  | EvSpinnerStop
  | EvConsola (text : string)
  | EvSpawn (file : string) (args : list string) (out err : nat)
  | EvCancel (pid : nat)
  | EvOnShutdown (pid : nat).

#[global] Instance event_eq_dec : EqDecision event.
Proof. solve_decision. Defined.

(** A child process: what it was started with, whether it still runs, how
    often [cancel()] was called on it and how many termination signals
    were delivered to it. *)
Record proc := {
  p_file : string;
  p_args : list string;
  p_stdout : nat;
  p_stderr : nat;
  p_alive : bool;
  p_cancels : nat;
  p_signals : nat
}.

Record World := {
  w_fs : tree;
  w_fds : list string;      (* descriptor [i] is open on the [i]-th path *)
  w_procs : list proc;      (* child [i] is the [i]-th process *)
  w_hooks : list nat;       (* children whose [close] runs at shutdown *)
  w_trace : list event
}.

Definition set_fs (m : tree) (w : World) : World :=
  {| w_fs := m; w_fds := w_fds w; w_procs := w_procs w;
     w_hooks := w_hooks w; w_trace := w_trace w |}.

Definition log (e : event) (w : World) : World :=
  {| w_fs := w_fs w; w_fds := w_fds w; w_procs := w_procs w;
     w_hooks := w_hooks w; w_trace := w_trace w ++ [e] |}.

(** ** File-system primitives *)

Module Fs.

Definition node_at (m : tree) (k : list string) : option node :=
  match k with
  | [] => Some Dir
  | _ => m !! k
  end.

Definition exists_at (m : tree) (p : string) : bool :=
  match node_at m (Path.key p) with
  | Some _ => true
  | None => false
  end.

(** Create the directories [pre/s1], [pre/s1/s2], ... in turn; stops at
    the first one that is a regular file and reports failure, keeping what
    was created so far. *)
Fixpoint mkdirs (pre rest : list string) (m : tree) : tree * bool :=
  match rest with
  | [] => (m, true)
  | s :: rest' =>
      let k := pre ++ [s] in
      match m !! k with
      | Some (File _) => (m, false)
      | Some Dir => mkdirs k rest' m
      | None => mkdirs k rest' (<[k := Dir]> m)
      end
  end.

Definition parent (k : list string) : list string :=
  take (length k - 1) k.

(** Create or truncate a regular file: its directory must exist and the
    path must not be a directory. *)
Definition write (k : list string) (data : string) (m : tree)
  : option tree :=
  match k, node_at m (parent k), m !! k with
  | [], _, _ => None
  | _, Some Dir, Some Dir => None
  | _, Some Dir, _ => Some (<[k := File data]> m)
  | _, _, _ => None
  end.

(** Remove a path with everything below it. *)
Definition remove_tree (k : list string) (m : tree) : tree :=
  filter (λ kv, ¬ k `prefix_of` kv.1) m.

End Fs.

(** ** The monad of awaited steps

    A step transforms the world and either yields a value or rejects.  A
    rejection aborts the rest of the sequence; what was done before it
    stays done. *)

Definition M (A : Type) : Type := World → World * (error + A).

Definition ret {A} (a : A) : M A := λ w, (w, inr a).

Definition throw {A} (e : error) : M A := λ w, (w, inl e).

Definition bind {A B} (c : M A) (k : A → M B) : M B :=
  λ w, match c w with
       | (w', inr a) => k a w'
       | (w', inl e) => (w', inl e)
       end.

Definition lift {A} (r : error + A) : M A := λ w, (w, r).

Declare Scope step_scope.
Delimit Scope step_scope with step.
Notation "'let*' x := c 'in' k" := (bind c (λ x, k))
  (at level 10, x name, c at level 100, k at level 200) : step_scope.
Notation "c ;; k" := (bind c (λ _, k))
  (at level 100, k at level 200, right associativity) : step_scope.

Definition emit (e : event) : M unit := λ w, (log e w, inr tt).

Local Open Scope step_scope.

(** *** [fs-extra] *)

Definition existsSync (p : string) : M bool :=
  emit (EvExists p);;
  λ w, (w, inr (Fs.exists_at (w_fs w) p)).

Definition mkdirp (p : string) : M unit :=
  emit (EvMkdirp p);;
  λ w, let '(m, ok) := Fs.mkdirs [] (Path.key p) (w_fs w) in
       (set_fs m w, if ok then inr tt else inl (FsError "mkdirp" p)).

Definition remove (p : string) : M unit :=
  emit (EvRemove p);;
  λ w, (set_fs (Fs.remove_tree (Path.key p) (w_fs w)) w, inr tt).

(** [fsExtra.open(p, 'w+')]: the file is created or truncated and a new
    descriptor is returned. *)
Definition open (p : string) : M nat :=
  emit (EvOpen p "w+");;
  λ w, match Fs.write (Path.key p) "" (w_fs w) with
       | Some m =>
           ({| w_fs := m; w_fds := w_fds w ++ [p]; w_procs := w_procs w;
               w_hooks := w_hooks w; w_trace := w_trace w |},
            inr (length (w_fds w)))
       | None => (w, inl (FsError "open" p))
       end.

(** *** [download]

    [download(url, dir, {filename})] fetches the body and writes it to
    [dir/filename], creating [dir] first.  A broken transfer rejects; it
    may leave a truncated file at the destination. *)
Definition store (dest : string) (data : string) : M unit :=
  λ w, let k := Path.key dest in
       let '(m, ok) := Fs.mkdirs [] (Fs.parent k) (w_fs w) in
       if ok then
         match Fs.write k data m with
         | Some m' => (set_fs m' w, inr tt)
         | None => (set_fs m w, inl (FsError "writeFile" dest))
         end
       else (set_fs m w, inl (FsError "mkdir" dest)).

Definition download (h : host) (url dir filename : string) : M unit :=
  emit (EvDownload url dir filename);;
  match fetch h url with
  | Complete body => store (Path.join dir filename) body
  | Broken None => throw (DownloadError url)
  | Broken (Some part) =>
      store (Path.join dir filename) part;; throw (DownloadError url)
  end.

(** *** [decompress]

    [decompress(file, dir, {strip})] decodes the archive and writes every
    entry below [dir] after dropping the first [strip] segments of its
    path. *)
Definition strip_path (strip : nat) (p : string) : string :=
  Js.join "/" (drop strip (Js.split "/" p)).

Definition extract_entry (dir : string) (strip : nat)
    (e : string * node) : M unit :=
  let dest := Path.join dir (strip_path strip e.1) in
  match e.2 with
  | Dir =>
      λ w, let '(m, ok) := Fs.mkdirs [] (Path.key dest) (w_fs w) in
           (set_fs m w, if ok then inr tt else inl (FsError "mkdir" dest))
  | File data => store dest data
  end.

Fixpoint extract_all (dir : string) (strip : nat)
    (es : list (string * node)) : M unit :=
  match es with
  | [] => ret tt
  | e :: es' => extract_entry dir strip e;; extract_all dir strip es'
  end.

Definition decompress (h : host) (file dir : string) (strip : nat)
  : M unit :=
  emit (EvDecompress file dir strip);;
  λ w, match Fs.node_at (w_fs w) (Path.key file) with
       | Some (File data) =>
           match unpack h data with
           | Some es =>
               match extract_all dir strip
                       (filter (λ e, strip_path strip e.1 ≠ ".") es) w with
               | (w', inr _) => (w', inr tt)
               | (w', inl _) => (w', inl (DecompressError file))
               end
           | None => (w, inl (DecompressError file))
           end
       | _ => (w, inl (DecompressError file))
       end.

(** *** [execa]

    [execa(file, args, {stdout, stderr})] returns the child at once; the
    child runs if [file] is a regular file. *)
Definition execa (file : string) (args : list string) (out err : nat)
  : M nat :=
  emit (EvSpawn file args out err);;
  λ w, let alive := match Fs.node_at (w_fs w) (Path.key file) with
                    | Some (File _) => true
                    | _ => false
                    end in
       ({| w_fs := w_fs w; w_fds := w_fds w;
           w_procs := w_procs w ++
             [{| p_file := file; p_args := args; p_stdout := out;
                 p_stderr := err; p_alive := alive; p_cancels := 0;
                 p_signals := 0 |}];
           w_hooks := w_hooks w; w_trace := w_trace w |},
        inr (length (w_procs w))).

(** [server.cancel()]: a termination signal is sent if the child still
    runs; on a child that is gone the call does nothing. *)
Definition cancel_proc (p : proc) : proc :=
  {| p_file := p_file p; p_args := p_args p; p_stdout := p_stdout p;
     p_stderr := p_stderr p; p_alive := p_alive p;
     p_cancels := S (p_cancels p);
     p_signals := if p_alive p then S (p_signals p) else p_signals p |}.

Definition set_procs (ps : list proc) (w : World) : World :=
  {| w_fs := w_fs w; w_fds := w_fds w; w_procs := ps;
     w_hooks := w_hooks w; w_trace := w_trace w |}.

Definition cancel (pid : nat) : M unit :=
  emit (EvCancel pid);;
  λ w, (set_procs (alter cancel_proc pid (w_procs w)) w, inr tt).

(** The child ends on its own: a move of the environment, not of the
    orchestrator. *)
Definition exit_proc (p : proc) : proc :=
  {| p_file := p_file p; p_args := p_args p; p_stdout := p_stdout p;
     p_stderr := p_stderr p; p_alive := false;
     p_cancels := p_cancels p; p_signals := p_signals p |}.

Definition child_exits (pid : nat) (w : World) : World :=
  set_procs (alter exit_proc pid (w_procs w)) w.

(** *** [node-graceful-shutdown] *)
Definition onShutdown (pid : nat) : M unit :=
  emit (EvOnShutdown pid);;
  λ w, ({| w_fs := w_fs w; w_fds := w_fds w; w_procs := w_procs w;
           w_hooks := w_hooks w ++ [pid]; w_trace := w_trace w |}, inr tt).

(** ** [startMongo] *)

(** [MongoOptions] and the merged options: a JavaScript object, that is a
    finite map from keys to values.  A key can be absent, or present with
    the value [undefined]. *)
Abbreviation options := (gmap string Js.val).

(** Reading a property: an absent key reads as [undefined]. *)
Definition prop (o : options) (k : string) : Js.val :=
  default Js.undefined (o !! k).

(** The defaults object of the source (the four keys before [...opts]). *)
Definition defaults (h : host) (formula : Formula.t) : options :=
  {[ "name" := Js.or_else (env h !! "MONGO_NAME") (Js.str "default");
     "port" := Js.or_else (env h !! "MONGO_PORT")
                 (Js.or_else (env h !! "PORT") (Formula.port formula));
     "platform" := Js.or_else (env h !! "MONGO_PLATFORM")
                     (Js.str (platform h));
     "dir" := Js.or_else (env h !! "MONGO_DIR")
                (Js.str (Path.resolve_strings (cwd h) [tmpdir h; "mongo"])) ]}.

(** [{ ...defaults, ...opts }]: the caller's own keys win, whatever their
    value. *)
Definition applyDefaults (h : host) (formula : Formula.t) (opts : options)
  : options :=
  opts ∪ defaults h formula.

(** [formula.platforms.find(p => p.name === opts.platform)]. *)
Definition findPlatform (formula : Formula.t) (opts : options)
  : option Platform.t :=
  find (λ p, bool_decide (Js.str (Platform.name p) = prop opts "platform"))
       (Formula.platforms formula).

(** The planned layout. *)
Record paths := {
  dataDir : string;
  logsDir : string;
  logFile : string;
  sourceDir : string;
  sourceFileName : string;
  sourceFile : string;
  extractDir : string;
  execFile : string
}.

Definition bind_sum {A B} (r : error + A) (k : A → error + B)
  : error + B :=
  match r with
  | inr a => k a
  | inl e => inl e
  end.

(** The block "Resolve paths". *)
Definition resolvePaths (cwd : string) (formula : Formula.t)
    (platform : Platform.t) (opts : options) : error + paths :=
  let dir := prop opts "dir" in
  let name := prop opts "name" in
  let fname := Js.str (Formula.name formula) in
  bind_sum (Path.resolve cwd [dir; Js.str "data"; name; fname]) (λ dataDir,
  bind_sum (Path.resolve cwd [dir; Js.str "logs"; name; fname]) (λ logsDir,
  bind_sum (Path.resolve cwd [Js.str logsDir; Js.str "logs.txt"]) (λ logFile,
  bind_sum (Path.resolve cwd
              [dir; Js.str "source"; fname;
               Js.str (Formula.version formula);
               Js.str (Platform.name platform)]) (λ sourceDir,
  let sourceFileName :=
    Formula.name formula +:+ "-" +:+ Formula.version formula +:+ "-"
      +:+ Platform.name platform
      +:+ Path.extname (Platform.source platform) in
  bind_sum (Path.resolve cwd [Js.str sourceDir; Js.str sourceFileName])
    (λ sourceFile,
  bind_sum (Path.resolve cwd [Js.str sourceDir; Js.str "unpacked"])
    (λ extractDir,
  bind_sum (Path.resolve cwd
              [Js.str extractDir; Js.str (Formula.exec formula)])
    (λ execFile,
  inr {| dataDir := dataDir; logsDir := logsDir; logFile := logFile;
         sourceDir := sourceDir; sourceFileName := sourceFileName;
         sourceFile := sourceFile; extractDir := extractDir;
         execFile := execFile |}))))))).

(** The block "Ensure package is installed". *)
Definition ensureInstalled (h : host) (platform : Platform.t) (p : paths)
  : M unit :=
  let* unpacked := existsSync (extractDir p) in
  let* ready := (if unpacked : bool then existsSync (execFile p)
                 else ret false) in
  if ready : bool then ret tt
  else
    let* cached := existsSync (sourceFile p) in
    (if cached : bool then ret tt
     else
       emit (EvSpinner ("Downloading " +:+ sourceFileName p +:+ "..."));;
       download h (Platform.source platform) (sourceDir p)
         (sourceFileName p));;
    emit (EvSpinner ("Decompressing " +:+ sourceFileName p +:+ "..."));;
    decompress h (sourceFile p) (extractDir p) 1;;
    emit EvSpinnerStop.

(** The block "Port and args". *)
Definition execArgs (template : string) (port : Js.val) (dataDir : string)
    (args : Js.val) : list string :=
  Js.split " "
    (Js.replace (Js.replace template "{port}" (Js.to_string port))
       "{data}" dataDir)
  ++ match args with
     | Js.arr extra => extra
     | _ => []
     end.

(** [const close = () => Promise.resolve(server.cancel())]. *)
Definition close (server : nat) : M unit := cancel server.

Module MongoService.
Record t := { server : nat; close : M unit }.
End MongoService.

(** The blocks "Open logs file", "Port and args" and "Start app", up to
    the returned service; [opts] is the merged configuration. *)
Definition launch (formula : Formula.t) (opts : options) (p : paths)
  : M MongoService.t :=
  mkdirp (logsDir p);;
  remove (logFile p);;
  let* logsFile := open (logFile p) in
  emit (EvConsola ("Writing logs to: " +:+ logFile p));;
  let args := execArgs (Formula.execArgs formula) (prop opts "port")
                (dataDir p) (prop opts "args") in
  emit (EvSpinner ("Starting " +:+ Formula.name formula +:+ " at port "
                   +:+ Js.to_string (prop opts "port")));;
  let* server := execa (execFile p) args logsFile logsFile in
  onShutdown server;;
  ret {| MongoService.server := server;
         MongoService.close := close server |}.

Definition startMongo (h : host) (formula : Formula.t) (opts : options)
  : M MongoService.t :=
  let opts := applyDefaults h formula opts in
  match findPlatform formula opts with
  | None =>
      throw (Error ("Platform '" +:+ Js.to_string (prop opts "platform")
                    +:+ "' is not available for '"
                    +:+ Formula.name formula +:+ "'"))
  | Some platform =>
      let* p := lift (resolvePaths (cwd h) formula platform opts) in
      mkdirp (dataDir p);;
      ensureInstalled h platform p;;
      launch formula opts p
  end.

(** ** The argument list as the specification words it

    "the template split on whitespace after substituting [{port}] with the
    stringified port and [{data}] with [dataDir], followed by the extra
    arguments". *)
Module Spec.

Definition is_space (a : ascii) : bool :=
  bool_decide (a ∈ [" "; "009"; "010"; "011"; "012"; "013"]%char).

(** The words of a text: maximal runs of characters that are not
    whitespace.  [cur] is the word being read. *)
Fixpoint words_from (cur : string) (s : string) : list string :=
  match s with
  | EmptyString => if bool_decide (cur = "") then [] else [cur]
  | String a s' =>
      if is_space a then
        (if bool_decide (cur = "") then [] else [cur]) ++ words_from "" s'
      else words_from (cur +:+ String a "") s'
  end.

Definition words (s : string) : list string := words_from "" s.

(** Every occurrence of [pat] replaced by [r], literally.  [skip] counts
    the characters of an occurrence still to pass over. *)
Fixpoint substitute_from (skip : nat) (pat r s : string) : string :=
  match s with
  | EmptyString => EmptyString
  | String a s' =>
      match skip with
      | S k => substitute_from k pat r s'
      | O =>
          if String.prefix pat s && negb (bool_decide (pat = ""))
          then r +:+ substitute_from (String.length pat - 1) pat r s'
          else String a (substitute_from 0 pat r s')
      end
  end.

Definition substitute (pat r s : string) : string :=
  substitute_from 0 pat r s.

Definition arguments (template : string) (port : Js.val)
    (dataDir : string) (extra : list string) : list string :=
  words (substitute "{data}" dataDir
           (substitute "{port}" (Js.to_string port) template))
  ++ extra.

End Spec.

(** The claim on the argument list, as stated. *)
Definition arguments_as_specified (template : string) (port : Js.val)
    (dataDir : string) (extra : list string) : Prop :=
  execArgs template port dataDir (Js.arr extra)
  = Spec.arguments template port dataDir extra.

(** Literal replacement of the first occurrence of [pat]. *)
Definition replace_first (pat r s : string) : string :=
  match Js.cut pat s with
  | None => s
  | Some (b, e) => b +:+ r +:+ e
  end.

Definition no_dollar (s : string) : bool := Js.free_of "$" s.

(** The extra arguments that are appended: those of an array, nothing for
    any other value of [opts.args]. *)
Definition extra_args (args : Js.val) : list string :=
  match args with
  | Js.arr extra => extra
  | _ => []
  end.

(** An environment variable counts as unset when it is absent or empty. *)
Definition unset (x : option string) : Prop := x = None ∨ x = Some "".

(** ** A sample installation

    A formula with two platforms, a host on which the transfer completes
    and the archive holds the executable in a version-named folder, and an
    empty world. *)
Module Sample.

Definition formula : Formula.t :=
  {| Formula.name := "mongodb"; Formula.version := "4.0.6";
     Formula.exec := "bin/mongod";
     Formula.execArgs := "--port {port} --dbpath {data}";
     Formula.port := Js.num 27017;
     Formula.platforms :=
       [ {| Platform.name := "linux";
            Platform.source := "https://dl.example.org/linux/mongodb-4.0.6.tgz" |};
         {| Platform.name := "darwin";
            Platform.source := "https://dl.example.org/osx/mongodb-4.0.6.zip" |} ] |}.

Definition archive : list (string * node) :=
  [ ("mongodb-4.0.6/", Dir);
    ("mongodb-4.0.6/bin/mongod", File "ELF") ].

Definition machine (vars : gmap string string) (net : string → transfer)
  : host :=
  {| env := vars; platform := "linux"; tmpdir := "/tmp"; cwd := "/home/u";
     fetch := net;
     unpack := λ d, if bool_decide (d = "TGZ") then Some archive else None |}.

Definition online : host := machine ∅ (λ _, Complete "TGZ").

(** A host on which every transfer breaks and leaves a truncated file. *)
Definition flaky : host := machine ∅ (λ _, Broken (Some "TG")).

Definition empty : World :=
  {| w_fs := ∅; w_fds := []; w_procs := []; w_hooks := []; w_trace := [] |}.

(** The layout planned for the default configuration on that host. *)
Definition layout : paths :=
  {| dataDir := "/tmp/mongo/data/default/mongodb";
     logsDir := "/tmp/mongo/logs/default/mongodb";
     logFile := "/tmp/mongo/logs/default/mongodb/logs.txt";
     sourceDir := "/tmp/mongo/source/mongodb/4.0.6/linux";
     sourceFileName := "mongodb-4.0.6-linux.tgz";
     sourceFile :=
       "/tmp/mongo/source/mongodb/4.0.6/linux/mongodb-4.0.6-linux.tgz";
     extractDir := "/tmp/mongo/source/mongodb/4.0.6/linux/unpacked";
     execFile :=
       "/tmp/mongo/source/mongodb/4.0.6/linux/unpacked/bin/mongod" |}.

(** The world after a first start, and the same world after the unpacked
    [bin] directory was lost: an extraction that did not finish. *)
Definition started : World := (startMongo online formula ∅ empty).1.

(** The service that first start returned. *)
Definition service : MongoService.t :=
  match (startMongo online formula ∅ empty).2 with
  | inr svc => svc
  | inl _ => {| MongoService.server := 0; MongoService.close := ret tt |}
  end.


End Sample.

(** * Properties *)

(** ** Observations on a trace *)

Definition is_download (e : event) : bool :=
  match e with EvDownload _ _ _ => true | _ => false end.

Definition is_decompress (e : event) : bool :=
  match e with EvDecompress _ _ _ => true | _ => false end.

Definition is_spawn (e : event) : bool :=
  match e with EvSpawn _ _ _ _ => true | _ => false end.

Definition is_cancel (e : event) : bool :=
  match e with EvCancel _ => true | _ => false end.

(** The network calls, decompressions, spawns and termination requests
    recorded in a world. *)
Definition downloads (w : World) : list event :=
  filter (λ e, is_download e = true) (w_trace w).

Definition decompressions (w : World) : list event :=
  filter (λ e, is_decompress e = true) (w_trace w).

Definition spawns (w : World) : list event :=
  filter (λ e, is_spawn e = true) (w_trace w).

Definition cancellations (w : World) : list event :=
  filter (λ e, is_cancel e = true) (w_trace w).

(** Whether the block "Ensure package is installed" got past the
    acquisition of the archive: it resolved, or it was rejected by
    [decompress]. *)
Definition acquired (r : error + unit) : bool :=
  match r with
  | inr _ => true
  | inl (DecompressError _) => true
  | inl _ => false
  end.

(** Both targets of the extraction are on disk. *)
Definition installed (w : World) (p : paths) : bool :=
  Fs.exists_at (w_fs w) (extractDir p) && Fs.exists_at (w_fs w) (execFile p).

(** Termination signals delivered so far to child [pid]. *)
Definition signals_sent (w : World) (pid : nat) : nat :=
  default 0 (p_signals <$> w_procs w !! pid).

(** The claim on closing twice, as stated: both calls resolve and together
    they request termination at most once, whether one counts the
    [cancel()] calls or the signals delivered. *)
Definition close_twice_requests_once (svc : MongoService.t) (w : World)
  : Prop :=
  let first := MongoService.close svc w in
  let second := MongoService.close svc first.1 in
  first.2 = inr tt ∧ second.2 = inr tt
  ∧ (length (cancellations second.1) ≤ S (length (cancellations w))
     ∨ signals_sent second.1 (MongoService.server svc)
       ≤ S (signals_sent w (MongoService.server svc))).

(** The paths a call plans, when it gets as far as planning. *)
Definition planned (h : host) (formula : Formula.t) (opts : options)
  : option paths :=
  let opts := applyDefaults h formula opts in
  match findPlatform formula opts with
  | Some platform =>
      match resolvePaths (cwd h) formula platform opts with
      | inr p => Some p
      | inl _ => None
      end
  | None => None
  end.


(** ** Further observations *)

(** Two worlds hold the same resources: the same open descriptors, the
    same children and the same shutdown hooks. *)
Definition same_handles (w w' : World) : Prop :=
  w_fds w' = w_fds w ∧ w_procs w' = w_procs w ∧ w_hooks w' = w_hooks w.

(** The calls of the block "Ensure package is installed" when it resolves,
    read off the file system [w] it starts in. *)
Definition install_events (platform : Platform.t) (p : paths) (w : World)
  : list event :=
  EvExists (extractDir p)
  :: (if Fs.exists_at (w_fs w) (extractDir p)
      then [EvExists (execFile p)] else [])
  ++ (if installed w p then []
      else EvExists (sourceFile p)
           :: (if Fs.exists_at (w_fs w) (sourceFile p) then []
               else [EvSpinner ("Downloading " +:+ sourceFileName p +:+ "...");
                     EvDownload (Platform.source platform) (sourceDir p)
                       (sourceFileName p)])
           ++ [EvSpinner ("Decompressing " +:+ sourceFileName p +:+ "...");
               EvDecompress (sourceFile p) (extractDir p) 1;
               EvSpinnerStop]).

(** The calls of the blocks from "Open logs file" on when they resolve,
    for the log descriptor [fd] and the child [pid]. *)
Definition launch_events (formula : Formula.t) (opts : options) (p : paths)
    (fd pid : nat) : list event :=
  [EvMkdirp (logsDir p); EvRemove (logFile p); EvOpen (logFile p) "w+";
   EvConsola ("Writing logs to: " +:+ logFile p);
   EvSpinner ("Starting " +:+ Formula.name formula +:+ " at port "
              +:+ Js.to_string (prop opts "port"));
   EvSpawn (execFile p)
     (execArgs (Formula.execArgs formula) (prop opts "port") (dataDir p)
        (prop opts "args")) fd fd;
   EvOnShutdown pid].

(** An error raised before any call to the file system or the network. *)
Definition early (e : error) : bool :=
  match e with
  | Error _ | TypeError _ => true
  | _ => false
  end.

(** An absolute, normalised path: a slash followed by plain segments
    joined by slashes. *)
Definition normal_path (p : string) : Prop :=
  ∃ segs, p = Path.of_segments segs ∧ Forall (λ s, Path.plain s = true) segs.

(** A value that is a string. *)
Definition is_str (v : Js.val) : bool :=
  match v with
  | Js.str _ => true
  | _ => false
  end.

(** A second start on the sample host, in the world the first start left
    after the child wrote to its log. *)
Module Restart.

Definition stale : World :=
  set_fs (<[Path.key (logFile Sample.layout) := File "old output"]>
            (w_fs Sample.started))
         Sample.started.

Definition again : World :=
  (startMongo Sample.online Sample.formula ∅ stale).1.

Definition service : MongoService.t :=
  {| MongoService.server := 1; MongoService.close := close 1 |}.

End Restart.

(** ** Configuration resolution *)

Section Config.
Context (h : host) (formula : Formula.t) (opts : options).

Lemma applyDefaults_explicit k v :
  opts !! k = Some v → applyDefaults h formula opts !! k = Some v.
Proof. intros Hk. unfold applyDefaults. by apply lookup_union_Some_l. Qed.

Lemma applyDefaults_absent k :
  opts !! k = None →
  applyDefaults h formula opts !! k = defaults h formula !! k.
Proof. intros Hk. unfold applyDefaults. by rewrite lookup_union_r. Qed.

Lemma or_else_set s d : s ≠ "" → Js.or_else (Some s) d = Js.str s.
Proof. by destruct s. Qed.

Lemma or_else_unset x d : x = None ∨ x = Some "" → Js.or_else x d = d.
Proof. by intros [-> | ->]. Qed.
End Config.

(** C9: a key that the caller passes with the value [undefined] stays
    [undefined] in the merged configuration: the caller's object is spread
    last, and the spread copies the key whatever its value, so neither the
    environment, the formula nor the hard-coded default is consulted. *)
Theorem C9_explicit_undefined_survives_merge
    (h : host) (formula : Formula.t) (opts : options) (k : string) :
  opts !! k = Some Js.undefined →
  applyDefaults h formula opts !! k = Some Js.undefined
  ∧ prop (applyDefaults h formula opts) k = Js.undefined.
Proof.
  intros Hk. pose proof (applyDefaults_explicit h formula opts k _ Hk) as E.
  split; [exact E|]. unfold prop. by rewrite E.
Qed.

Lemma C9_witness :
  applyDefaults (Sample.machine {[ "MONGO_PORT" := "5000" ]} (λ _, Broken None))
    Sample.formula {[ "port" := Js.undefined ]} !! "port"
  = Some Js.undefined.
Proof.
  refine (proj1 (C9_explicit_undefined_survives_merge _ _ _ "port" _)).
  reflexivity.
Defined.

(** C8: precedence of configuration sources.  A key the caller passes wins
    over everything.  Otherwise a set environment variable wins:
    [MONGO_NAME], [MONGO_PORT] and then the generic [PORT],
    [MONGO_PLATFORM], [MONGO_DIR].  Otherwise the formula's default port,
    the host platform, and the hard-coded fallbacks apply: ['default'] for
    the name and [mongo] below the temporary directory for [dir]. *)
Theorem C8_configuration_precedence
    (h : host) (formula : Formula.t) (opts : options) :
  let cfg := applyDefaults h formula opts in
  (∀ k v, opts !! k = Some v → cfg !! k = Some v)
  ∧ (opts !! "name" = None →
       (∀ s, env h !! "MONGO_NAME" = Some s → s ≠ "" →
          cfg !! "name" = Some (Js.str s))
       ∧ (unset (env h !! "MONGO_NAME") →
          cfg !! "name" = Some (Js.str "default")))
  ∧ (opts !! "port" = None →
       (∀ s, env h !! "MONGO_PORT" = Some s → s ≠ "" →
          cfg !! "port" = Some (Js.str s))
       ∧ (unset (env h !! "MONGO_PORT") →
          (∀ s, env h !! "PORT" = Some s → s ≠ "" →
             cfg !! "port" = Some (Js.str s))
          ∧ (unset (env h !! "PORT") →
             cfg !! "port" = Some (Formula.port formula))))
  ∧ (opts !! "platform" = None →
       (∀ s, env h !! "MONGO_PLATFORM" = Some s → s ≠ "" →
          cfg !! "platform" = Some (Js.str s))
       ∧ (unset (env h !! "MONGO_PLATFORM") →
          cfg !! "platform" = Some (Js.str (platform h))))
  ∧ (opts !! "dir" = None →
       (∀ s, env h !! "MONGO_DIR" = Some s → s ≠ "" →
          cfg !! "dir" = Some (Js.str s))
       ∧ (unset (env h !! "MONGO_DIR") →
          ∀ d, Path.resolve (cwd h) [Js.str (tmpdir h); Js.str "mongo"]
               = inr d →
          cfg !! "dir" = Some (Js.str d))).
Proof.
  intros cfg. subst cfg.
  refine (conj _ (conj _ (conj _ (conj _ _))));
    [intros k v; apply applyDefaults_explicit | ..];
    intros Hk; rewrite (applyDefaults_absent h formula opts _ Hk);
    unfold defaults; split.
  - intros s -> Hs. by rewrite lookup_insert_eq, or_else_set.
  - intros U. by rewrite lookup_insert_eq, or_else_unset.
  - intros s -> Hs.
    rewrite lookup_insert_ne, lookup_insert_eq by done. by rewrite or_else_set.
  - intros U. split.
    + intros s -> Hs. rewrite lookup_insert_ne, lookup_insert_eq by done.
      by rewrite (or_else_unset _ _ U), or_else_set.
    + intros U'. rewrite lookup_insert_ne, lookup_insert_eq by done.
      by rewrite (or_else_unset _ _ U), (or_else_unset _ _ U').
  - intros s -> Hs.
    do 2 rewrite lookup_insert_ne by done. rewrite lookup_insert_eq.
    by rewrite or_else_set.
  - intros U. do 2 rewrite lookup_insert_ne by done. rewrite lookup_insert_eq.
    by rewrite or_else_unset.
  - intros s -> Hs.
    do 3 rewrite lookup_insert_ne by done. rewrite lookup_singleton_eq.
    by rewrite or_else_set.
  - intros U d Hd. do 3 rewrite lookup_insert_ne by done.
    rewrite lookup_singleton_eq, or_else_unset by done.
    unfold Path.resolve_strings. simpl fmap. by rewrite Hd.
Qed.

Lemma C8_witness :
  let cfg := applyDefaults (Sample.machine {[ "PORT" := "8080" ]} (λ _, Broken None))
               Sample.formula {[ "name" := Js.str "t1" ]} in
  cfg !! "name" = Some (Js.str "t1")
  ∧ cfg !! "port" = Some (Js.str "8080")
  ∧ cfg !! "platform" = Some (Js.str "linux")
  ∧ cfg !! "dir" = Some (Js.str "/tmp/mongo").
Proof.
  intros cfg.
  destruct (C8_configuration_precedence
              (Sample.machine {[ "PORT" := "8080" ]} (λ _, Broken None))
              Sample.formula {[ "name" := Js.str "t1" ]})
    as (Hexp & _ & Hport & Hplat & Hdir).
  split; [apply Hexp; reflexivity|].
  split; [apply (proj2 (Hport eq_refl)); [by left | reflexivity | done]|].
  split; [apply (proj2 (Hplat eq_refl)); by left|].
  apply (proj2 (Hdir eq_refl)); [by left | reflexivity].
Defined.

(** ** Platform selection *)

Lemma findPlatform_none (formula : Formula.t) (opts : options) :
  Forall (λ p, Js.str (Platform.name p) ≠ prop opts "platform")
         (Formula.platforms formula) →
  findPlatform formula opts = None.
Proof.
  unfold findPlatform. induction 1 as [|p ps Hp _ IH]; [done|].
  simpl. by rewrite bool_decide_eq_false_2.
Qed.

(** C1: when no entry of [formula.platforms] has the selected platform
    name (the caller's option, else [MONGO_PLATFORM], else the host
    platform), [startMongo] rejects with the unsupported-platform error
    and the world is left exactly as it was: no directory is created, no
    file is touched, nothing is fetched, and the trace of calls gains no
    entry. *)
Theorem C1_unsupported_platform_rejects_before_io
    (h : host) (formula : Formula.t) (opts : options) (w : World) :
  Forall (λ p, Js.str (Platform.name p)
               ≠ prop (applyDefaults h formula opts) "platform")
         (Formula.platforms formula) →
  startMongo h formula opts w
  = (w, inl (Error ("Platform '"
                    +:+ Js.to_string (prop (applyDefaults h formula opts)
                                        "platform")
                    +:+ "' is not available for '"
                    +:+ Formula.name formula +:+ "'"))).
Proof.
  intros Hno. unfold startMongo.
  by rewrite (findPlatform_none _ _ Hno).
Qed.

Lemma C1_witness :
  startMongo Sample.online Sample.formula
    {[ "platform" := Js.str "unsupported-os" ]} Sample.empty
  = (Sample.empty,
     inl (Error "Platform 'unsupported-os' is not available for 'mongodb'")).
Proof.
  etransitivity.
  - apply (C1_unsupported_platform_rejects_before_io Sample.online
             Sample.formula {[ "platform" := Js.str "unsupported-os" ]}
             Sample.empty).
    repeat constructor; vm_compute; discriminate.
  - vm_compute. reflexivity.
Defined.

(** ** Splitting and joining *)

Lemma append_cons (a : ascii) (s t : string) :
  String a s +:+ t = String a (s +:+ t).
Proof. reflexivity. Qed.

Lemma append_empty (t : string) : "" +:+ t = t.
Proof. reflexivity. Qed.


Lemma split_not_nil (c : ascii) (s : string) : Js.split c s ≠ [].
Proof.
  destruct s as [|a s]; [done|]. simpl.
  destruct (Ascii.eqb a c); [done|]. by destruct (Js.split c s).
Qed.

Lemma join_cons (sep w : string) (l : list string) :
  l ≠ [] → Js.join sep (w :: l) = w +:+ sep +:+ Js.join sep l.
Proof. by destruct l. Qed.

(** Joining the pieces of a split gives the text back. *)
Lemma join_split (c : ascii) (s : string) :
  Js.join (String c "") (Js.split c s) = s.
Proof.
  induction s as [|a s IH]; [done|]. cbn [Js.split].
  pose proof (split_not_nil c s) as N.
  destruct (Ascii.eqb a c) eqn:E.
  - apply Ascii.eqb_eq in E as ->. rewrite join_cons by done.
    by rewrite IH.
  - destruct (Js.split c s) as [|w ws]; [done|].
    destruct ws as [|w' ws]; simpl in *; by rewrite <- IH.
Qed.

(** A piece without the separator, followed by the separator, is the
    first piece of the split. *)
Lemma split_append (c : ascii) (a b : string) :
  Js.free_of c a = true →
  Js.split c (a +:+ String c b) = a :: Js.split c b.
Proof.
  induction a as [|x a IH]; intros F.
  - simpl. by rewrite Ascii.eqb_refl.
  - simpl in F. apply andb_prop in F as [Fx Fa].
    apply negb_true_iff in Fx.
    change (String x a +:+ String c b) with (String x (a +:+ String c b)).
    cbn [Js.split]. by rewrite Fx, IH.
Qed.

Lemma split_free (c : ascii) (a : string) :
  Js.free_of c a = true → Js.split c a = [a].
Proof.
  induction a as [|x a IH]; intros F; [done|].
  simpl in F. apply andb_prop in F as [Fx Fa]. apply negb_true_iff in Fx.
  cbn [Js.split]. by rewrite Fx, IH.
Qed.

(** ** The argument list *)

Lemma substitution_no_dollar (m b e r : string) :
  no_dollar r = true → Js.substitution m b e r = r.
Proof.
  unfold no_dollar.
  induction r as [|a r IH]; [done|]. intros [Ha Hr]%andb_prop.
  apply negb_true_iff in Ha. cbn [Js.substitution]. rewrite Ha.
  by rewrite IH.
Qed.

Lemma replace_no_dollar (s pat r : string) :
  no_dollar r = true → Js.replace s pat r = replace_first pat r s.
Proof.
  intros Hr. unfold Js.replace, replace_first.
  destruct (Js.cut pat s) as [[b e]|]; [|done].
  by rewrite substitution_no_dollar.
Qed.

Lemma prefix_cut (pat s : string) :
  String.prefix pat s = true → s = pat +:+ Js.drop (String.length pat) s.
Proof.
  revert s. induction pat as [|c pat IH]; intros s; [done|].
  destruct s as [|d s]; simpl; [done|].
  destruct (ascii_dec c d) as [->|]; [|done]. intros H.
  change (String d s = String d (pat +:+ Js.drop (String.length pat) s)).
  f_equal. by apply IH.
Qed.

(** [Js.cut] finds an occurrence: the text is the part before, the
    pattern, and the part after. *)
Lemma cut_some (pat s b e : string) :
  Js.cut pat s = Some (b, e) → s = b +:+ pat +:+ e.
Proof.
  revert b. induction s as [|a s IH]; intros b; cbn [Js.cut].
  - destruct (String.prefix pat "") eqn:Hp; [|done].
    intros [= <- <-]. by apply prefix_cut in Hp.
  - destruct (String.prefix pat (String a s)) eqn:Hp.
    + intros [= <- <-]. by apply prefix_cut in Hp.
    + destruct (Js.cut pat s) as [[b' e']|]; [|done].
      intros [= <- <-]. specialize (IH b' eq_refl). by rewrite IH at 1.
Qed.

(** ... and it is the first one: the pattern starts at no earlier
    position. *)
Lemma cut_first (pat s b e : string) :
  Js.cut pat s = Some (b, e) →
  ∀ b1 b2, b = b1 +:+ b2 → b2 ≠ "" →
    String.prefix pat (b2 +:+ pat +:+ e) = false.
Proof.
  revert b. induction s as [|a s IH]; intros b; cbn [Js.cut].
  - destruct (String.prefix pat ""); [|done].
    intros [= <- <-] [|x b1] b2 E N; [|done]. by rewrite append_empty in E.
  - destruct (String.prefix pat (String a s)) eqn:Hp.
    { intros [= <- <-] [|x b1] b2 E N; [|done].
      by rewrite append_empty in E. }
    destruct (Js.cut pat s) as [[b' e']|] eqn:C; [|done].
    intros [= <- <-] [|x b1] b2 E N.
    + rewrite append_empty in E. subst b2. rewrite append_cons.
      by rewrite <- (cut_some _ _ _ _ C).
    + rewrite append_cons in E. injection E as -> ->. by eapply IH.
Qed.

(** ** How the steps act on the file system and on the trace *)

Ltac steps := repeat (cbv [bind existsSync emit ret lift throw]; simpl).

Arguments Fs.exists_at : simpl never.
Arguments Path.key : simpl never.
Arguments download : simpl never.
Arguments decompress : simpl never.
Arguments store : simpl never.
Arguments mkdirp : simpl never.
Arguments ensureInstalled : simpl never.
Arguments launch : simpl never.

Lemma mkdirs_keeps (rest pre : list string) (m : tree) (k : list string)
    (n : node) :
  m !! k = Some n → (Fs.mkdirs pre rest m).1 !! k = Some n.
Proof.
  revert pre m. induction rest as [|s rest IH]; intros pre m Hk; [done|].
  simpl. destruct (m !! (pre ++ [s])) as [[|d]|] eqn:E; [by apply IH|done|].
  apply IH. rewrite lookup_insert_ne; [done|]. intros <-. congruence.
Qed.

Lemma mkdirs_keeps_node (rest pre : list string) (m : tree)
    (k : list string) (n : node) :
  Fs.node_at m k = Some n → Fs.node_at (Fs.mkdirs pre rest m).1 k = Some n.
Proof. destruct k; [done|]. apply mkdirs_keeps. Qed.

Lemma mkdirp_keeps_existing (p q : string) (w : World) :
  Fs.exists_at (w_fs w) q = true →
  Fs.exists_at (w_fs (mkdirp p w).1) q = true.
Proof.
  unfold Fs.exists_at, mkdirp, bind, emit. simpl.
  destruct (Fs.node_at (w_fs w) (Path.key q)) as [n|] eqn:E; [|done].
  intros _. pose proof (mkdirs_keeps_node (Path.key p) [] _ _ _ E) as K.
  destruct (Fs.mkdirs [] (Path.key p) (w_fs w)) as [m ok]. simpl in *.
  by rewrite K.
Qed.

Lemma mkdirp_trace (p : string) (w : World) :
  w_trace (mkdirp p w).1 = w_trace w ++ [EvMkdirp p].
Proof.
  unfold mkdirp, bind, emit. simpl.
  by destruct (Fs.mkdirs [] (Path.key p) (w_fs w)).
Qed.

Lemma store_trace (dest data : string) (w : World) :
  w_trace (store dest data w).1 = w_trace w.
Proof.
  unfold store.
  destruct (Fs.mkdirs [] (Fs.parent (Path.key dest)) (w_fs w)) as [m [|]];
    [|done].
  by destruct (Fs.write (Path.key dest) data m).
Qed.

Lemma download_trace (h : host) (url dir file : string) (w : World) :
  w_trace (download h url dir file w).1
  = w_trace w ++ [EvDownload url dir file].
Proof.
  unfold download, bind, emit. simpl.
  destruct (fetch h url) as [body|[part|]]; simpl.
  - pose proof (store_trace (Path.join dir file) body
                  (log (EvDownload url dir file) w)) as T.
    by destruct (store _ _ _) as [w' [e|[]]].
  - pose proof (store_trace (Path.join dir file) part
                  (log (EvDownload url dir file) w)) as T.
    by destruct (store _ _ _) as [w' [e|[]]].
  - done.
Qed.





Lemma extract_entry_trace (dir : string) (strip : nat) (e : string * node)
    (w : World) :
  w_trace (extract_entry dir strip e w).1 = w_trace w.
Proof.
  unfold extract_entry. destruct (e.2); [|apply store_trace].
  by destruct (Fs.mkdirs _ _ _).
Qed.

Lemma extract_all_trace (dir : string) (strip : nat)
    (es : list (string * node)) (w : World) :
  w_trace (extract_all dir strip es w).1 = w_trace w.
Proof.
  revert w. induction es as [|e es IH]; intros w; [done|].
  simpl. unfold bind.
  pose proof (extract_entry_trace dir strip e w) as T.
  destruct (extract_entry dir strip e w) as [w' [x|[]]]; [done|].
  simpl in T. by rewrite IH.
Qed.

Lemma decompress_trace (h : host) (file dir : string) (strip : nat)
    (w : World) :
  w_trace (decompress h file dir strip w).1
  = w_trace w ++ [EvDecompress file dir strip].
Proof.
  unfold decompress, bind, emit. simpl.
  destruct (Fs.node_at (w_fs w) (Path.key file)) as [[|data]|]; try done.
  destruct (unpack h data) as [es|]; [|done].
  pose proof (extract_all_trace dir strip
                (filter (λ e, strip_path strip e.1 ≠ ".") es)
                (log (EvDecompress file dir strip) w)) as T.
  by destruct (extract_all _ _ _ _) as [w' [x|[]]].
Qed.

(** [decompress] rejects with its own error only. *)
Lemma decompress_result (h : host) (file dir : string) (strip : nat)
    (w : World) :
  (decompress h file dir strip w).2 = inr tt
  ∨ (decompress h file dir strip w).2 = inl (DecompressError file).
Proof.
  unfold decompress, bind, emit. simpl.
  destruct (Fs.node_at (w_fs w) (Path.key file)) as [[|data]|]; auto.
  destruct (unpack h data) as [es|]; auto.
  destruct (extract_all _ _ _ _) as [w' [x|[]]]; auto.
Qed.

(** ** The block "Ensure package is installed" *)

Section Install.
Context (h : host) (platform : Platform.t) (p : paths).

Local Abbreviation the_download :=
  (EvDownload (Platform.source platform) (sourceDir p) (sourceFileName p)).
Local Abbreviation the_decompress :=
  (EvDecompress (sourceFile p) (extractDir p) 1).

(** Installed already: two existence checks and nothing else. *)
Lemma ensureInstalled_skip (w : World) :
  installed w p = true →
  ensureInstalled h platform p w
  = (log (EvExists (execFile p)) (log (EvExists (extractDir p)) w),
     inr tt).
Proof.
  intros [E1 E2]%andb_prop. unfold ensureInstalled. steps.
  rewrite E1. steps. by rewrite E2.
Qed.

(** Not installed, archive on disk: no download, one decompression. *)
Lemma ensureInstalled_cached (w : World) :
  installed w p = false →
  Fs.exists_at (w_fs w) (sourceFile p) = true →
  let out := ensureInstalled h platform p w in
  downloads out.1 = downloads w
  ∧ decompressions out.1 = decompressions w ++ [the_decompress]
  ∧ acquired out.2 = true.
Proof.
  intros Hn Hc. unfold installed in Hn.
  unfold ensureInstalled. steps.
  destruct (Fs.exists_at (w_fs w) (extractDir p)) eqn:E1; simpl in *;
    steps; rewrite ?Hn; steps; rewrite Hc; steps.
  all: match goal with
       | |- context [decompress h ?f ?d ?n ?w0] =>
           pose proof (decompress_trace h f d n w0) as T;
           pose proof (decompress_result h f d n w0) as R;
           destruct (decompress h f d n w0) as [w3 [e|[]]]
       end; simpl in *.
  all: unfold downloads, decompressions; simpl; rewrite ?T;
       rewrite ?filter_app; simpl; rewrite ?app_nil_r, <- ?app_assoc.
  all: destruct R as [R|R]; simplify_eq; done.
Qed.

End Install.

(** ** The launch blocks *)

(** What [launch] does: it fetches and unpacks nothing and cancels
    nothing; when it resolves, exactly one child was spawned, with the
    planned executable, the built argument list and the fresh descriptor of
    the log file as both output streams, and the service returned is that
    child with [close] bound to it. *)
Lemma launch_run (formula : Formula.t) (opts : options) (p : paths)
    (w w' : World) (r : error + MongoService.t) :
  launch formula opts p w = (w', r) →
  downloads w' = downloads w
  ∧ decompressions w' = decompressions w
  ∧ cancellations w' = cancellations w
  ∧ match r with
    | inl _ => w_procs w' = w_procs w ∧ spawns w' = spawns w
    | inr svc =>
        let args := execArgs (Formula.execArgs formula) (prop opts "port")
                      (dataDir p) (prop opts "args") in
        let fd := length (w_fds w) in
        MongoService.server svc = length (w_procs w)
        ∧ MongoService.close svc = close (length (w_procs w))
        ∧ w_fds w' = w_fds w ++ [logFile p]
        ∧ spawns w' = spawns w ++ [EvSpawn (execFile p) args fd fd]
        ∧ ∃ alive,
            w_procs w'
            = w_procs w ++ [{| p_file := execFile p; p_args := args;
                               p_stdout := fd; p_stderr := fd;
                               p_alive := alive; p_cancels := 0;
                               p_signals := 0 |}]
    end.
Proof.
  unfold launch, mkdirp, remove, open, execa, onShutdown. steps.
  destruct (Fs.mkdirs [] (Path.key (logsDir p)) (w_fs w)) as [m [|]]; steps.
  - destruct (Fs.write (Path.key (logFile p)) ""
                (Fs.remove_tree (Path.key (logFile p)) m)) as [m'|]; steps;
      intros [= <- <-]; unfold downloads, decompressions, cancellations,
        spawns; simpl; rewrite ?filter_app; simpl;
      rewrite ?app_nil_r; repeat split; eauto.
  - intros [= <- <-]; unfold downloads, decompressions, cancellations,
      spawns; simpl; rewrite ?filter_app; simpl;
      rewrite ?app_nil_r; repeat split; eauto.
Qed.

(** ** Acquisition and extraction *)

Lemma downloads_log (e : event) (w : World) :
  is_download e = false → downloads (log e w) = downloads w.
Proof.
  intros E. unfold downloads. cbn [log w_trace]. rewrite filter_app.
  rewrite filter_cons_False by congruence. apply app_nil_r.
Qed.

Lemma decompressions_log (e : event) (w : World) :
  is_decompress e = false → decompressions (log e w) = decompressions w.
Proof.
  intros E. unfold decompressions. cbn [log w_trace]. rewrite filter_app.
  rewrite filter_cons_False by congruence. apply app_nil_r.
Qed.

Lemma mkdirp_quiet (p : string) (w : World) :
  downloads (mkdirp p w).1 = downloads w
  ∧ decompressions (mkdirp p w).1 = decompressions w.
Proof.
  unfold downloads, decompressions. rewrite mkdirp_trace, !filter_app.
  simpl. by rewrite !app_nil_r.
Qed.

Lemma ensureInstalled_no_download (h : host) (platform : Platform.t)
    (p : paths) (w : World) :
  Fs.exists_at (w_fs w) (sourceFile p) = true →
  downloads (ensureInstalled h platform p w).1 = downloads w.
Proof.
  intros Hc. destruct (installed w p) eqn:Hi.
  - rewrite ensureInstalled_skip by done. simpl.
    by rewrite !downloads_log.
  - by apply ensureInstalled_cached.
Qed.




Lemma mkdirs_creates (rest pre : list string) (m m' : tree) :
  rest ≠ [] → Fs.mkdirs pre rest m = (m', true) →
  m' !! (pre ++ rest) = Some Dir.
Proof.
  revert pre m. induction rest as [|s rest IH]; intros pre m N; [done|].
  simpl. destruct rest as [|s' rest].
  - simpl. destruct (m !! (pre ++ [s])) as [[|d]|] eqn:E;
      intros [= <-]; [done|]. apply lookup_insert_eq.
  - assert (s' :: rest ≠ []) as N' by done.
    replace (pre ++ s :: s' :: rest) with ((pre ++ [s]) ++ s' :: rest)
      by by rewrite <- app_assoc.
    destruct (m !! (pre ++ [s])) as [[|d]|]; [by apply IH|done|by apply IH].
Qed.

Lemma mkdirs_creates_node (k : list string) (m m' : tree) :
  Fs.mkdirs [] k m = (m', true) → Fs.node_at m' k = Some Dir.
Proof.
  destruct k as [|s k]; [done|]. intros H.
  by apply (mkdirs_creates (s :: k) [] m m').
Qed.

Lemma write_keeps (k q : list string) (data : string) (m m' : tree) :
  Fs.write k data m = Some m' →
  is_Some (Fs.node_at m q) → is_Some (Fs.node_at m' q).
Proof.
  unfold Fs.write. destruct k as [|s k]; [done|].
  destruct (Fs.node_at m (Fs.parent (s :: k))) as [[|]|]; try done.
  destruct q as [|t q]; [by eauto|]. simpl.
  destruct (m !! (s :: k)) as [[|]|]; try done; intros [= <-] Hq;
    (destruct (decide (s :: k = t :: q)) as [->|];
       [rewrite lookup_insert_eq; eauto | by rewrite lookup_insert_ne]).
Qed.

Lemma write_creates (k : list string) (data : string) (m m' : tree) :
  Fs.write k data m = Some m' → Fs.node_at m' k = Some (File data).
Proof.
  unfold Fs.write. destruct k as [|s k]; [done|].
  destruct (Fs.node_at m (Fs.parent (s :: k))) as [[|]|]; try done.
  simpl. destruct (m !! (s :: k)) as [[|]|]; try done; intros [= <-];
    apply lookup_insert_eq.
Qed.

Lemma exists_at_is_Some (m : tree) (q : string) :
  Fs.exists_at m q = true ↔ is_Some (Fs.node_at m (Path.key q)).
Proof.
  unfold Fs.exists_at. destruct (Fs.node_at m (Path.key q)); split;
    intros H; eauto; try done; by destruct H.
Qed.

Lemma store_keeps (dest data q : string) (w : World) :
  Fs.exists_at (w_fs w) q = true →
  Fs.exists_at (w_fs (store dest data w).1) q = true.
Proof.
  rewrite !exists_at_is_Some. intros [n Hn]. unfold store.
  pose proof (mkdirs_keeps_node (Fs.parent (Path.key dest)) [] _ _ _ Hn) as K.
  destruct (Fs.mkdirs [] (Fs.parent (Path.key dest)) (w_fs w)) as [m [|]];
    simpl in *; [|eauto].
  destruct (Fs.write (Path.key dest) data m) as [m'|] eqn:W; simpl; [|eauto].
  eapply write_keeps; eauto.
Qed.


Lemma extract_entry_keeps (dir : string) (strip : nat) (e : string * node)
    (q : string) (w : World) :
  Fs.exists_at (w_fs w) q = true →
  Fs.exists_at (w_fs (extract_entry dir strip e w).1) q = true.
Proof.
  unfold extract_entry. destruct (e.2); [|apply store_keeps].
  rewrite !exists_at_is_Some. intros [n Hn].
  pose proof (mkdirs_keeps_node
                (Path.key (Path.join dir (strip_path strip e.1))) [] _ _ _ Hn)
    as K.
  destruct (Fs.mkdirs _ _ _) as [m ok]; simpl in *. eauto.
Qed.


Lemma extract_all_keeps (dir : string) (strip : nat)
    (es : list (string * node)) (q : string) (w : World) :
  Fs.exists_at (w_fs w) q = true →
  Fs.exists_at (w_fs (extract_all dir strip es w).1) q = true.
Proof.
  revert w. induction es as [|e es IH]; intros w Hq; [done|].
  simpl. unfold bind.
  pose proof (extract_entry_keeps dir strip e q w Hq) as K.
  destruct (extract_entry dir strip e w) as [w1 [x|[]]]; [done|].
  by apply IH.
Qed.





(** ** A call that resolves *)

(** A resolved call went through every block: the platform was found, the
    paths planned, the data directory made, the package ensured, and the
    service comes from [launch]. *)
Lemma startMongo_resolved (h : host) (formula : Formula.t) (opts : options)
    (w w' : World) (svc : MongoService.t) :
  startMongo h formula opts w = (w', inr svc) →
  ∃ platform p w1 w2,
    findPlatform formula (applyDefaults h formula opts) = Some platform
    ∧ planned h formula opts = Some p
    ∧ mkdirp (dataDir p) w = (w1, inr tt)
    ∧ ensureInstalled h platform p w1 = (w2, inr tt)
    ∧ launch formula (applyDefaults h formula opts) p w2 = (w', inr svc).
Proof.
  unfold startMongo, planned.
  destruct (findPlatform formula (applyDefaults h formula opts))
    as [platform|]; [|done].
  destruct (resolvePaths (cwd h) formula platform
              (applyDefaults h formula opts)) as [e|p]; [done|].
  steps.
  destruct (mkdirp (dataDir p) w) as [w1 [e|[]]] eqn:M; [done|].
  destruct (ensureInstalled h platform p w1) as [w2 [e|[]]] eqn:I; [done|].
  intros L. by exists platform, p, w1, w2.
Qed.

(** The service of a resolved call is the child just spawned, and its
    [close] is [close] of that child. *)
Lemma startMongo_service (h : host) (formula : Formula.t) (opts : options)
    (w w' : World) (svc : MongoService.t) :
  startMongo h formula opts w = (w', inr svc) →
  MongoService.close svc = close (MongoService.server svc)
  ∧ MongoService.server svc < length (w_procs w')
  ∧ ∃ p pr,
      planned h formula opts = Some p
      ∧ w_procs w' !! MongoService.server svc = Some pr
      ∧ p_file pr = execFile p
      ∧ p_args pr
        = execArgs (Formula.execArgs formula)
            (prop (applyDefaults h formula opts) "port") (dataDir p)
            (prop (applyDefaults h formula opts) "args")
      ∧ p_stdout pr = p_stderr pr
      ∧ w_fds w' !! p_stdout pr = Some (logFile p).
Proof.
  intros (platform & p & w1 & w2 & _ & Hp & _ & _ & L)%startMongo_resolved.
  apply launch_run in L as (_ & _ & _ & Hs & Hc & Hfd & _ & alive & Hpr).
  rewrite Hs, Hc, Hpr, Hfd. split; [done|]. split.
  { rewrite length_app. simpl. lia. }
  eexists p, _. split; [done|]. split.
  { by rewrite lookup_app_r, Nat.sub_diag by lia. }
  simpl. repeat split.
  by rewrite lookup_app_r, Nat.sub_diag by lia.
Qed.

(** ** The spawn arguments *)

(** C2, as the code has it: the argument list is the template with the
    first occurrence of [{port}] replaced by the stringified port and then
    the first occurrence of [{data}] replaced by [dataDir] (for texts free
    of dollar signs), cut at every single space character, followed by the
    caller's extra arguments in the order given; this is the list the
    child is spawned with.  For the template
    [--port {port} --dbpath {data}], port 27111 and [/x/data] this is
    [--port 27111 --dbpath /x/data], and a caller-supplied [--quiet] is the
    final element. *)
Theorem C2_arguments_from_template
    (template : string) (port : Js.val) (data : string) (args : Js.val) :
  no_dollar (Js.to_string port) = true →
  no_dollar data = true →
  execArgs template port data args
  = Js.split " " (replace_first "{data}" data
                    (replace_first "{port}" (Js.to_string port) template))
    ++ extra_args args
  ∧ execArgs "--port {port} --dbpath {data}" (Js.num 27111) "/x/data"
      Js.undefined
    = ["--port"; "27111"; "--dbpath"; "/x/data"]
  ∧ (∀ extra,
       execArgs "--port {port} --dbpath {data}" (Js.num 27111) "/x/data"
         (Js.arr extra)
       = ["--port"; "27111"; "--dbpath"; "/x/data"] ++ extra)
  ∧ (∀ h formula opts w w' svc,
       startMongo h formula opts w = (w', inr svc) →
       ∃ p pr,
         planned h formula opts = Some p
         ∧ w_procs w' !! MongoService.server svc = Some pr
         ∧ p_args pr
           = execArgs (Formula.execArgs formula)
               (prop (applyDefaults h formula opts) "port") (dataDir p)
               (prop (applyDefaults h formula opts) "args"))
  ∧ (∀ pat r s,
       match Js.cut pat s with
       | Some (b, e) =>
           s = b +:+ pat +:+ e
           ∧ replace_first pat r s = b +:+ r +:+ e
           ∧ ∀ b1 b2, b = b1 +:+ b2 → b2 ≠ "" →
               String.prefix pat (b2 +:+ pat +:+ e) = false
       | None => replace_first pat r s = s
       end).
Proof.
  intros Hp Hd.
  split; [|split; [reflexivity | split; [intros; reflexivity|split]]].
  - unfold execArgs. by rewrite !replace_no_dollar.
  - intros h formula opts w w' svc Hrun.
    apply startMongo_service in Hrun
      as (_ & _ & p & pr & Hplan & Hpr & _ & Hargs & _).
    by exists p, pr.
  - intros pat r s. unfold replace_first.
    destruct (Js.cut pat s) as [[b e]|] eqn:C; [|done].
    split; [by apply cut_some|]. split; [done|]. by eapply cut_first.
Qed.

Lemma C2_witness :
  execArgs "--port {port} --dbpath {data}" (Js.num 27111) "/x/data"
    (Js.arr ["--quiet"])
  = ["--port"; "27111"; "--dbpath"; "/x/data"; "--quiet"].
Proof.
  etransitivity.
  - apply (C2_arguments_from_template "--port {port} --dbpath {data}"
             (Js.num 27111) "/x/data" (Js.arr ["--quiet"]));
      reflexivity.
  - reflexivity.
Defined.

(** The argument list is not the template split on whitespace after
    substitution: a tab between two words of the template does not
    separate them, and a second [{port}] is left as it is. *)
Lemma C2_counterexample :
  ¬ arguments_as_specified ("--port" +:+ String "009" "{port} {port}")
      (Js.num 27111) "/x/data" ["--quiet"].
Proof. unfold arguments_as_specified. vm_compute. discriminate. Qed.

(** ** Shutdown *)

Lemma close_run (pid : nat) (w : World) :
  close pid w
  = (set_procs (alter cancel_proc pid (w_procs w)) (log (EvCancel pid) w),
     inr tt).
Proof. reflexivity. Qed.

Lemma cancellations_close (pid : nat) (w : World) :
  cancellations (close pid w).1 = cancellations w ++ [EvCancel pid].
Proof.
  rewrite close_run. unfold cancellations. simpl. by rewrite filter_app.
Qed.

Lemma close_proc (pid : nat) (w : World) (pr : proc) :
  w_procs w !! pid = Some pr →
  w_procs (close pid w).1 !! pid = Some (cancel_proc pr).
Proof.
  intros Hpr. rewrite close_run. simpl.
  by rewrite list_lookup_alter_eq, Hpr.
Qed.

(** C6, as the code has it: [close()] resolves every time it is called,
    also when the child has already ended on its own.  Every call makes
    one [cancel()] request: two calls make two, and each is delivered as a
    signal while the child still runs; none is delivered once it has
    ended. *)
Theorem C6_close_resolves_and_cancels_on_every_call
    (h : host) (formula : Formula.t) (opts : options) (w0 w1 : World)
    (svc : MongoService.t) :
  startMongo h formula opts w0 = (w1, inr svc) →
  ∀ w : World,
    let pid := MongoService.server svc in
    let first := MongoService.close svc w in
    let second := MongoService.close svc first.1 in
    first.2 = inr tt ∧ second.2 = inr tt
    ∧ cancellations second.1
      = cancellations w ++ [EvCancel pid; EvCancel pid]
    ∧ (∀ pr, w_procs w !! pid = Some pr →
         signals_sent second.1 pid
         = if p_alive pr then p_signals pr + 2 else p_signals pr)
    ∧ (MongoService.close svc (child_exits pid w)).2 = inr tt
    ∧ signals_sent (MongoService.close svc (child_exits pid w)).1 pid
      = signals_sent w pid.
Proof.
  intros Hrun w pid first second.
  apply startMongo_service in Hrun as (Hclose & _).
  subst first second pid. rewrite Hclose.
  set (pid := MongoService.server svc).
  split; [done|]. split; [done|]. split.
  { rewrite !cancellations_close. by rewrite <- app_assoc. }
  split.
  - intros pr Hpr. unfold signals_sent.
    rewrite (close_proc pid _ (cancel_proc pr))
      by by apply close_proc.
    simpl. destruct (p_alive pr); simpl; lia.
  - split; [done|]. unfold signals_sent, child_exits. rewrite close_run.
    simpl. rewrite !list_lookup_alter_eq.
    by destruct (w_procs w !! pid).
Qed.

Lemma C6_witness :
  cancellations
    (MongoService.close Sample.service
       (MongoService.close Sample.service Sample.started).1).1
  = cancellations Sample.started ++ [EvCancel 0; EvCancel 0].
Proof.
  refine (proj1 (proj2 (proj2
            (C6_close_resolves_and_cancels_on_every_call Sample.online
               Sample.formula ∅ Sample.empty Sample.started Sample.service
               _ Sample.started)))).
  vm_compute. reflexivity.
Defined.

(** Closing twice while the child runs requests its termination twice. *)
Lemma C6_counterexample :
  ¬ close_twice_requests_once Sample.service Sample.started.
Proof.
  unfold close_twice_requests_once. vm_compute.
  intros (_ & _ & [H|H]); inversion H as [|? H']; inversion H'.
Qed.

(** C10: [close()] asks for the cancellation of the child and does nothing
    else.  The file system is the same before and after (data, logs,
    source and unpacked trees), the table of open descriptors is the same
    (the log file opened for the child's output stays open), no shutdown
    hook changes, every other child is untouched, and the child itself
    keeps its executable, arguments and streams. *)
Theorem C10_close_only_requests_cancellation
    (h : host) (formula : Formula.t) (opts : options) (w0 w1 : World)
    (svc : MongoService.t) :
  startMongo h formula opts w0 = (w1, inr svc) →
  (∀ w : World,
     let pid := MongoService.server svc in
     let out := MongoService.close svc w in
     w_fs out.1 = w_fs w
     ∧ w_fds out.1 = w_fds w
     ∧ w_hooks out.1 = w_hooks w
     ∧ w_trace out.1 = w_trace w ++ [EvCancel pid]
     ∧ (∀ i, i ≠ pid → w_procs out.1 !! i = w_procs w !! i)
     ∧ (∀ pr, w_procs w !! pid = Some pr →
          ∃ pr', w_procs out.1 !! pid = Some pr'
                 ∧ p_file pr' = p_file pr ∧ p_args pr' = p_args pr
                 ∧ p_stdout pr' = p_stdout pr ∧ p_stderr pr' = p_stderr pr))
  ∧ ∃ p pr,
      planned h formula opts = Some p
      ∧ w_procs w1 !! MongoService.server svc = Some pr
      ∧ w_fds w1 !! p_stdout pr = Some (logFile p)
      ∧ w_fds (MongoService.close svc w1).1 !! p_stdout pr
        = Some (logFile p).
Proof.
  intros Hrun.
  apply startMongo_service in Hrun
    as (Hclose & _ & p & pr & Hp & Hpr & _ & _ & _ & Hfd).
  rewrite Hclose. split.
  - intros w pid out. subst out pid. rewrite close_run. simpl.
    repeat split; try done.
    + intros i Hi. by rewrite list_lookup_alter_ne.
    + intros pr0 Hpr0. exists (cancel_proc pr0).
      by rewrite list_lookup_alter_eq, Hpr0.
  - exists p, pr. by rewrite close_run.
Qed.

Lemma C10_witness :
  w_fs (MongoService.close Sample.service Sample.started).1
  = w_fs Sample.started
  ∧ w_fds (MongoService.close Sample.service Sample.started).1
    = ["/tmp/mongo/logs/default/mongodb/logs.txt"].
Proof.
  destruct (C10_close_only_requests_cancellation Sample.online
              Sample.formula ∅ Sample.empty Sample.started Sample.service)
    as [H _]; [vm_compute; reflexivity|].
  destruct (H Sample.started) as (Hfs & Hfds & _).
  split; [exact Hfs|]. etransitivity; [exact Hfds|]. vm_compute. reflexivity.
Defined.

(** ** Broken transfers *)

Lemma spawns_trace (w w' : World) (l : list event) :
  w_trace w' = w_trace w ++ l →
  Forall (λ e, is_spawn e = false) l →
  spawns w' = spawns w.
Proof.
  intros T Hl. unfold spawns. rewrite T, filter_app.
  rewrite <- (app_nil_r (filter _ (w_trace w))) at 2. f_equal.
  clear T. induction Hl as [|e l He _ IH]; [done|].
  by rewrite filter_cons_False by congruence.
Qed.

Section Broken.
Context (h : host) (platform : Platform.t) (p : paths).

(** The block spawns nothing. *)
Lemma ensureInstalled_no_spawn (w : World) :
  spawns (ensureInstalled h platform p w).1 = spawns w.
Proof.
  unfold ensureInstalled. steps.
  destruct (Fs.exists_at (w_fs w) (extractDir p)); steps;
    [destruct (Fs.exists_at (w_fs w) (execFile p)); steps|].
  1: by eapply spawns_trace; [simpl; by rewrite <- app_assoc|repeat constructor].
  all: match goal with
       | |- context [Fs.exists_at ?m (sourceFile ?q)] =>
           destruct (Fs.exists_at m (sourceFile q))
       end; steps.
  all: try match goal with
       | |- context [download h ?u ?d ?f ?w0] =>
           pose proof (download_trace h u d f w0) as D;
           destruct (download h u d f w0) as [w2 [e|[]]]
       end; simpl in *.
  all: try match goal with
       | |- context [decompress h ?f ?d ?n ?w0] =>
           pose proof (decompress_trace h f d n w0) as T;
           destruct (decompress h f d n w0) as [w3 [e'|[]]]
       end; simpl in *.
  all: eapply spawns_trace;
    [simpl; rewrite ?T; simpl; rewrite ?D; simpl;
     rewrite <- ?app_assoc; reflexivity
    |repeat constructor].
Qed.


End Broken.

(** A call fetches only when, after the data directory was made, the
    package is not installed and there is no archive on disk. *)
Lemma startMongo_fetches (h : host) (formula : Formula.t) (opts : options)
    (platform : Platform.t) (p : paths) (w : World) :
  findPlatform formula (applyDefaults h formula opts) = Some platform →
  planned h formula opts = Some p →
  downloads (startMongo h formula opts w).1 ≠ downloads w →
  ∃ w1,
    mkdirp (dataDir p) w = (w1, inr tt)
    ∧ installed w1 p = false
    ∧ Fs.exists_at (w_fs w1) (sourceFile p) = false
    ∧ startMongo h formula opts w
      = bind (ensureInstalled h platform p)
          (λ _, launch formula (applyDefaults h formula opts) p) w1.
Proof.
  intros Hf Hp. unfold planned in Hp. unfold startMongo.
  rewrite Hf in *.
  destruct (resolvePaths (cwd h) formula platform
              (applyDefaults h formula opts)) as [e|q]; [done|].
  injection Hp as ->. steps.
  pose proof (mkdirp_quiet (dataDir p) w) as [Q _].
  destruct (mkdirp (dataDir p) w) as [w1 [e|[]]]; simpl in *; [done|].
  intros Hd. exists w1. split; [done|].
  assert (Fs.exists_at (w_fs w1) (sourceFile p) = true ∨ installed w1 p = true
          → downloads (ensureInstalled h platform p w1).1 = downloads w1)
    as Same.
  { intros [Hc|Hi]; [by apply ensureInstalled_no_download|].
    rewrite ensureInstalled_skip by done. simpl.
    by rewrite !downloads_log. }
  assert (downloads (ensureInstalled h platform p w1).1 ≠ downloads w1)
    as Diff.
  { intros E. apply Hd.
    destruct (ensureInstalled h platform p w1) as [w2 [e|[]]]; simpl in *;
      [congruence|].
    destruct (launch formula (applyDefaults h formula opts) p w2)
      as [w3 r] eqn:L.
    apply launch_run in L as (L & _). simpl. congruence. }
  destruct (installed w1 p); [by destruct Diff; auto|].
  destruct (Fs.exists_at (w_fs w1) (sourceFile p));
    [by destruct Diff; auto|done].
Qed.

Lemma startMongo_no_download (h : host) (formula : Formula.t)
    (opts : options) (p : paths) (w : World) :
  planned h formula opts = Some p →
  Fs.exists_at (w_fs w) (sourceFile p) = true →
  downloads (startMongo h formula opts w).1 = downloads w.
Proof.
  intros Hp Hc.
  destruct (decide (downloads (startMongo h formula opts w).1 = downloads w))
    as [|Hd]; [done|exfalso].
  assert (∃ platform,
            findPlatform formula (applyDefaults h formula opts)
            = Some platform) as [platform Hf].
  { unfold planned in Hp. destruct (findPlatform _ _); [eauto|done]. }
  destruct (startMongo_fetches h formula opts platform p w Hf Hp Hd)
    as (w1 & M & _ & Hn & _).
  pose proof (mkdirp_keeps_existing (dataDir p) _ w Hc) as K.
  rewrite M in K. simpl in K. congruence.
Qed.




(** ** Path planning *)


Lemma plain_free (s : string) : Path.plain s = true → Js.free_of "/" s = true.
Proof. by intros [_ F]%andb_prop. Qed.

Lemma plain_relative (s : string) :
  Path.plain s = true → ∃ a s', s = String a s' ∧ Ascii.eqb a "/" = false.
Proof.
  intros [N F]%andb_prop. apply bool_decide_eq_true in N as (N & _).
  destruct s as [|a s']; [done|]. exists a, s'. split; [done|].
  simpl in F. apply andb_prop in F as [F _]. by apply negb_true_iff in F.
Qed.


(** Splitting a join of pieces free of the separator gives the pieces. *)
Lemma split_join (c : ascii) (segs : list string) :
  segs ≠ [] → Forall (λ s, Js.free_of c s = true) segs →
  Js.split c (Js.join (String c "") segs) = segs.
Proof.
  intros N H. induction H as [|s segs Hs H IH]; [done|].
  destruct segs as [|s' segs]; [by apply split_free|].
  rewrite join_cons by done.
  change (s +:+ String c "" +:+ Js.join (String c "") (s' :: segs))
    with (s +:+ String c (Js.join (String c "") (s' :: segs))).
  rewrite split_append by done. f_equal. by apply IH.
Qed.

Lemma norm_step_plain (above : bool) (acc : list string) (s : string) :
  Path.plain s = true → Path.norm_step above acc s = acc ++ [s].
Proof.
  intros [N _]%andb_prop. apply bool_decide_eq_true in N as (N1 & N2 & N3).
  unfold Path.norm_step.
  rewrite bool_decide_eq_false_2 by (intros [?|?]; done).
  by rewrite bool_decide_eq_false_2.
Qed.

Lemma norm_plain (above : bool) (segs acc : list string) :
  Forall (λ s, Path.plain s = true) segs →
  foldl (Path.norm_step above) acc segs = acc ++ segs.
Proof.
  intros H. revert acc.
  induction H as [|s segs Hs _ IH]; intros acc; simpl.
  - by rewrite app_nil_r.
  - rewrite norm_step_plain by done. rewrite IH. by rewrite <- app_assoc.
Qed.

Lemma Forall_plain_free (segs : list string) :
  Forall (λ s, Path.plain s = true) segs →
  Forall (λ s, Js.free_of "/" s = true) segs.
Proof. intros H. eapply Forall_impl; [exact H|]. apply plain_free. Qed.

(** The segments of an absolute path made of plain segments, normalised
    from any start. *)
Lemma norm_of_segments (above : bool) (bs : list string) :
  Forall (λ s, Path.plain s = true) bs →
  foldl (Path.norm_step above) [] (Path.segments (Path.of_segments bs)) = bs.
Proof.
  intros H. unfold Path.segments, Path.of_segments.
  change ("/" +:+ Js.join "/" bs) with (String "/" (Js.join "/" bs)).
  cbn [Js.split]. rewrite Ascii.eqb_refl.
  destruct bs as [|b bs]; [reflexivity|].
  rewrite split_join by (done || by apply Forall_plain_free).
  cbn [foldl]. change (Path.norm_step above [] "") with (@nil string).
  apply Forall_cons in H as [Hb Hbs]. rewrite norm_step_plain by done.
  by rewrite norm_plain.
Qed.

Lemma join_relative (r : list string) :
  r ≠ [] → Forall (λ s, Path.plain s = true) r →
  Js.join "/" r ≠ "" ∧ Path.is_absolute (Js.join "/" r) = false.
Proof.
  intros N H. destruct H as [|s r Hs _]; [done|].
  apply plain_relative in Hs as (a & s' & -> & Ha).
  assert (∃ t, Js.join "/" (String a s' :: r) = String a t) as [t ->].
  { destruct r; [by eexists|]. rewrite join_cons by done.
    rewrite append_cons. by eexists. }
  split; [done|]. simpl.
  destruct (Ascii.eqb_spec a "/") as [->|]; [done|].
  destruct a as [[] [] [] [] [] [] [] []]; done.
Qed.

Lemma visit_relative (rs : list string) (base : string)
    (rest : list Js.val) :
  Path.is_absolute base = true →
  Forall (λ r, r ≠ "" ∧ Path.is_absolute r = false) rs →
  Path.visit ((Js.str <$> reverse rs) ++ Js.str base :: rest)
  = inr (base :: rs, true).
Proof.
  intros Hb. induction rs as [|r rs IH] using rev_ind; intros H.
  - simpl. rewrite Hb. destruct base; [done|].
    by rewrite bool_decide_eq_false_2.
  - apply Forall_app in H as [H [[Hr Ha] _]%Forall_cons].
    rewrite reverse_app, reverse_singleton.
    change ((Js.str <$> [r] ++ reverse rs) ++ Js.str base :: rest)
      with (Js.str r :: ((Js.str <$> reverse rs) ++ Js.str base :: rest)).
    cbn [Path.visit].
    rewrite bool_decide_eq_false_2 by done. rewrite Ha.
    by rewrite IH.
Qed.

Lemma segments_of_joins (rels : list (list string)) :
  Forall (λ r, r ≠ [] ∧ Forall (λ s, Path.plain s = true) r) rels →
  (Js.join "/" <$> rels) ≫= Path.segments = concat rels.
Proof.
  induction 1 as [|r rels [N H] _ IH]; [done|].
  rewrite fmap_cons, bind_cons, IH. simpl. f_equal.
  unfold Path.segments. apply split_join; [done|].
  by apply Forall_plain_free.
Qed.

(** [path.resolve] of an absolute directory made of plain segments,
    followed by relative paths made of plain segments, appends them: the
    working directory plays no part. *)
Lemma resolve_plain (cwd : string) (bs : list string)
    (rels : list (list string)) :
  Forall (λ s, Path.plain s = true) bs →
  Forall (λ r, r ≠ [] ∧ Forall (λ s, Path.plain s = true) r) rels →
  Path.resolve cwd
    (Js.str (Path.of_segments bs) :: (Js.str <$> (Js.join "/" <$> rels)))
  = inr (Path.of_segments (bs ++ concat rels)).
Proof.
  intros Hbs Hrels. unfold Path.resolve.
  rewrite reverse_cons, <- fmap_reverse, <- app_assoc. simpl app.
  rewrite visit_relative; [|done|].
  2:{ apply Forall_fmap. eapply Forall_impl; [exact Hrels|].
      intros r [N H]. by apply join_relative. }
  simpl negb. cbv iota. f_equal. unfold Path.of_segments. f_equal. f_equal.
  unfold Path.norm_segs. rewrite bind_cons, foldl_app.
  change ("/" +:+ Js.join "/" bs) with (Path.of_segments bs).
  rewrite norm_of_segments by done.
  rewrite segments_of_joins by done. rewrite norm_plain; [done|].
  apply Forall_concat. eapply Forall_impl; [exact Hrels|]. by intros r [_ H].
Qed.



(** *** The extension of the source URL *)


Lemma split_pieces_free (c : ascii) (s : string) :
  Forall (λ w, Js.free_of c w = true) (Js.split c s).
Proof.
  induction s as [|x s IH]; [by repeat constructor|].
  cbn [Js.split]. destruct (Ascii.eqb x c) eqn:E; [by constructor|].
  destruct (Js.split c s) as [|w ws]; [by repeat constructor; simpl; rewrite E|].
  apply Forall_cons in IH as [Hw Hws]. constructor; [|done].
  simpl. by rewrite E, Hw.
Qed.













(** * Further properties of [startMongo] *)

(** ** Resources held by a call *)

Lemma same_handles_refl (w : World) : same_handles w w.
Proof. by repeat split. Qed.

Lemma same_handles_trans (w1 w2 w3 : World) :
  same_handles w1 w2 → same_handles w2 w3 → same_handles w1 w3.
Proof.
  intros (A1 & A2 & A3) (B1 & B2 & B3). repeat split; congruence.
Qed.

Lemma mkdirp_handles (p : string) (w : World) :
  same_handles w (mkdirp p w).1.
Proof.
  unfold mkdirp. steps.
  by destruct (Fs.mkdirs [] (Path.key p) (w_fs w)) as [m ok].
Qed.

Lemma store_handles (dest data : string) (w : World) :
  same_handles w (store dest data w).1.
Proof.
  unfold store.
  destruct (Fs.mkdirs [] (Fs.parent (Path.key dest)) (w_fs w)) as [m [|]];
    [|done].
  by destruct (Fs.write (Path.key dest) data m).
Qed.

Lemma download_handles (h : host) (url dir file : string) (w : World) :
  same_handles w (download h url dir file w).1.
Proof.
  unfold download. steps.
  destruct (fetch h url) as [body|[part|]]; steps; [| |done].
  - pose proof (store_handles (Path.join dir file) body
                  (log (EvDownload url dir file) w)) as S.
    by destruct (store _ _ _) as [w' [e|[]]].
  - pose proof (store_handles (Path.join dir file) part
                  (log (EvDownload url dir file) w)) as S.
    by destruct (store _ _ _) as [w' [e|[]]].
Qed.

Lemma extract_all_handles (dir : string) (strip : nat)
    (es : list (string * node)) (w : World) :
  same_handles w (extract_all dir strip es w).1.
Proof.
  revert w. induction es as [|e es IH]; intros w; [done|].
  simpl. unfold bind.
  assert (same_handles w (extract_entry dir strip e w).1) as E.
  { unfold extract_entry. destruct (e.2); [|apply store_handles].
    by destruct (Fs.mkdirs _ _ _). }
  destruct (extract_entry dir strip e w) as [w1 [x|[]]]; [done|].
  eapply same_handles_trans; [exact E|apply IH].
Qed.

Lemma decompress_handles (h : host) (file dir : string) (strip : nat)
    (w : World) :
  same_handles w (decompress h file dir strip w).1.
Proof.
  unfold decompress. steps.
  destruct (Fs.node_at (w_fs w) (Path.key file)) as [[|data]|]; try done.
  destruct (unpack h data) as [es|]; [|done].
  pose proof (extract_all_handles dir strip
                (filter (λ e, strip_path strip e.1 ≠ ".") es)
                (log (EvDecompress file dir strip) w)) as X.
  by destruct (extract_all _ _ _ _) as [w' [x|[]]].
Qed.

Lemma store_error (dest data : string) (w : World) (e : error) :
  (store dest data w).2 = inl e → early e = false.
Proof.
  unfold store.
  destruct (Fs.mkdirs [] (Fs.parent (Path.key dest)) (w_fs w)) as [m [|]];
    [destruct (Fs.write (Path.key dest) data m)|]; simpl;
    by intros [= <-].
Qed.

Lemma download_error (h : host) (url dir file : string) (w : World)
    (e : error) :
  (download h url dir file w).2 = inl e → early e = false.
Proof.
  unfold download. steps.
  destruct (fetch h url) as [body|[part|]]; steps.
  - apply store_error.
  - destruct (store _ _ _) as [w' [e'|[]]] eqn:S; simpl; intros [= <-];
      [|done].
    eapply store_error. by erewrite S.
  - by intros [= <-].
Qed.

Section InstallRun.
Context (h : host) (platform : Platform.t) (p : paths).

(** The block in full: it holds no resource, a rejection is never an early
    error, and when it resolves its calls are [install_events]. *)
Lemma ensureInstalled_run (w : World) :
  let out := ensureInstalled h platform p w in
  same_handles w out.1
  ∧ match out.2 with
    | inr _ => w_trace out.1 = w_trace w ++ install_events platform p w
    | inl e => early e = false
    end.
Proof.
  unfold ensureInstalled, install_events, installed. steps.
  destruct (Fs.exists_at (w_fs w) (extractDir p)) eqn:E1; steps;
    [destruct (Fs.exists_at (w_fs w) (execFile p)) eqn:E2; steps|].
  1: { split; [done|]. by rewrite <- app_assoc. }
  all: destruct (Fs.exists_at (w_fs w) (sourceFile p)) eqn:E3; steps.
  all: try match goal with
       | |- context [download h ?u ?d ?f ?w0] =>
           pose proof (download_trace h u d f w0) as D;
           pose proof (download_handles h u d f w0) as DH;
           pose proof (download_error h u d f w0) as DE;
           destruct (download h u d f w0) as [w2 [e|[]]]
       end; simpl in *.
  all: try match goal with
       | |- context [decompress h ?f ?d ?n ?w0] =>
           pose proof (decompress_trace h f d n w0) as T;
           pose proof (decompress_handles h f d n w0) as TH;
           pose proof (decompress_result h f d n w0) as TR;
           destruct (decompress h f d n w0) as [w3 [e'|[]]]
       end; simpl in *.
  all: try (destruct TR as [TR|TR]; simplify_eq).
  all: split;
    [first [done | by eapply same_handles_trans; [exact DH|exact TH]]|].
  all: first [done | by apply DE
             | simpl; rewrite ?T; simpl; rewrite ?D; simpl;
               by rewrite <- ?app_assoc].
Qed.

End InstallRun.

(** The launch blocks in full. *)
Lemma launch_full (formula : Formula.t) (opts : options) (p : paths)
    (w w' : World) (r : error + MongoService.t) :
  launch formula opts p w = (w', r) →
  match r with
  | inl e => early e = false ∧ same_handles w w'
  | inr svc =>
      w_trace w'
      = w_trace w
        ++ launch_events formula opts p (length (w_fds w))
             (length (w_procs w))
      ∧ w_hooks w' = w_hooks w ++ [length (w_procs w)]
      ∧ Fs.node_at (w_fs w') (Path.key (logFile p)) = Some (File "")
  end.
Proof.
  unfold launch, mkdirp, remove, open, execa, onShutdown, launch_events.
  steps.
  destruct (Fs.mkdirs [] (Path.key (logsDir p)) (w_fs w)) as [m [|]]; steps.
  - destruct (Fs.write (Path.key (logFile p)) ""
                (Fs.remove_tree (Path.key (logFile p)) m)) as [m'|] eqn:W;
      steps; intros [= <- <-]; simpl.
    + split; [by rewrite <- !app_assoc|]. split; [done|].
      by eapply write_creates.
    + by repeat split.
  - intros [= <- <-]. by repeat split.
Qed.

(** Once the platform is found and the paths are planned, a call is the
    sequence of its three effectful parts. *)
Lemma startMongo_sequence (h : host) (formula : Formula.t) (opts : options)
    (platform : Platform.t) (p : paths) (w : World) :
  findPlatform formula (applyDefaults h formula opts) = Some platform →
  planned h formula opts = Some p →
  startMongo h formula opts w
  = bind (mkdirp (dataDir p))
      (λ _, bind (ensureInstalled h platform p)
              (λ _, launch formula (applyDefaults h formula opts) p)) w.
Proof.
  intros Hf Hp. unfold planned in Hp. unfold startMongo. rewrite Hf in *.
  destruct (resolvePaths (cwd h) formula platform
              (applyDefaults h formula opts)) as [e|q]; [done|].
  by injection Hp as ->.
Qed.

(** A call that rejects early did nothing at all; any other rejection comes
    from the file system, the download or the decompression. *)
Lemma startMongo_early (h : host) (formula : Formula.t) (opts : options)
    (w w' : World) (e : error) :
  startMongo h formula opts w = (w', inl e) →
  early e = true → w' = w.
Proof.
  unfold startMongo.
  destruct (findPlatform formula (applyDefaults h formula opts))
    as [platform|]; [|by intros [= <- <-]].
  destruct (resolvePaths (cwd h) formula platform
              (applyDefaults h formula opts)) as [e'|p];
    [by intros [= <- <-]|].
  steps.
  assert ((mkdirp (dataDir p) w).2 = inr tt
          ∨ (mkdirp (dataDir p) w).2 = inl (FsError "mkdirp" (dataDir p)))
    as M.
  { unfold mkdirp. steps.
    destruct (Fs.mkdirs [] (Path.key (dataDir p)) (w_fs w)) as [m [|]];
      auto. }
  destruct (mkdirp (dataDir p) w) as [w1 [e1|[]]]; simpl in M.
  { destruct M as [M|M]; [done|]. injection M as ->. by intros [= <- <-]. }
  pose proof (ensureInstalled_run h platform p w1) as [_ I].
  destruct (ensureInstalled h platform p w1) as [w2 [e2|[]]]; simpl in I.
  { intros [= <- <-]. congruence. }
  intros L. apply launch_full in L as [L _]. congruence.
Qed.

(** X1: a call that is rejected holds nothing when it ends: it leaves no
    child behind, no shutdown hook and no open descriptor, and it spawned
    nothing.  When the rejection is the unsupported-platform error or the
    type error of path planning, the world is untouched. *)
Theorem X1_rejected_call_leaves_no_resources
    (h : host) (formula : Formula.t) (opts : options) (w w' : World)
    (e : error) :
  startMongo h formula opts w = (w', inl e) →
  same_handles w w'
  ∧ spawns w' = spawns w
  ∧ (early e = true → w' = w).
Proof.
  intros Hrun. split; [|split; [|by eapply startMongo_early]].
  - revert Hrun. unfold startMongo.
    destruct (findPlatform formula (applyDefaults h formula opts))
      as [platform|]; [|intros [= <- <-]; apply same_handles_refl].
    destruct (resolvePaths (cwd h) formula platform
                (applyDefaults h formula opts)) as [e'|p];
      [intros [= <- <-]; apply same_handles_refl|].
    steps.
    pose proof (mkdirp_handles (dataDir p) w) as M.
    destruct (mkdirp (dataDir p) w) as [w1 [e1|[]]]; simpl in M;
      [by intros [= <- <-]|].
    pose proof (ensureInstalled_run h platform p w1) as [I _].
    destruct (ensureInstalled h platform p w1) as [w2 [e2|[]]]; simpl in I.
    { intros [= <- <-]. by eapply same_handles_trans. }
    intros L. apply launch_full in L as [_ L].
    eapply same_handles_trans; [exact M|]. by eapply same_handles_trans.
  - revert Hrun. unfold startMongo.
    destruct (findPlatform formula (applyDefaults h formula opts))
      as [platform|]; [|by intros [= <- <-]].
    destruct (resolvePaths (cwd h) formula platform
                (applyDefaults h formula opts)) as [e'|p];
      [by intros [= <- <-]|].
    steps.
    pose proof (mkdirp_trace (dataDir p) w) as M.
    destruct (mkdirp (dataDir p) w) as [w1 [e1|[]]]; simpl in M.
    { intros [= <- <-]. by eapply spawns_trace; [exact M|repeat constructor]. }
    assert (spawns w1 = spawns w) as S1
      by by eapply spawns_trace; [exact M|repeat constructor].
    pose proof (ensureInstalled_no_spawn h platform p w1) as I.
    destruct (ensureInstalled h platform p w1) as [w2 [e2|[]]]; simpl in I.
    { intros [= <- <-]. congruence. }
    intros L. apply launch_run in L as (_ & _ & _ & _ & L). congruence.
Qed.

Lemma X1_witness :
  same_handles Sample.empty
    (startMongo Sample.flaky Sample.formula ∅ Sample.empty).1.
Proof.
  refine (proj1 (X1_rejected_call_leaves_no_resources Sample.flaky
                   Sample.formula ∅ Sample.empty _
                   (DownloadError
                      "https://dl.example.org/linux/mongodb-4.0.6.tgz") _)).
  vm_compute. reflexivity.
Defined.

(** X2: a call that resolves adds exactly one child, one shutdown hook and
    one open descriptor to the world it started in.  The child is the
    planned executable, its standard output and standard error are both
    the new descriptor, which is open on the log file, the hook is for
    that child, and the service returned is that child. *)
Theorem X2_resolved_call_adds_one_child_hook_descriptor
    (h : host) (formula : Formula.t) (opts : options) (w w' : World)
    (svc : MongoService.t) :
  startMongo h formula opts w = (w', inr svc) →
  ∃ p alive,
    planned h formula opts = Some p
    ∧ MongoService.server svc = length (w_procs w)
    ∧ w_procs w'
      = w_procs w
        ++ [{| p_file := execFile p;
               p_args :=
                 execArgs (Formula.execArgs formula)
                   (prop (applyDefaults h formula opts) "port") (dataDir p)
                   (prop (applyDefaults h formula opts) "args");
               p_stdout := length (w_fds w);
               p_stderr := length (w_fds w);
               p_alive := alive; p_cancels := 0; p_signals := 0 |}]
    ∧ w_hooks w' = w_hooks w ++ [length (w_procs w)]
    ∧ w_fds w' = w_fds w ++ [logFile p].
Proof.
  intros (platform & p & w1 & w2 & _ & Hp & M & I & L)%startMongo_resolved.
  pose proof (mkdirp_handles (dataDir p) w) as (F1 & P1 & H1).
  pose proof (ensureInstalled_run h platform p w1) as [(F2 & P2 & H2) _].
  rewrite M in *. rewrite I in *. simpl in *.
  pose proof (launch_full _ _ _ _ _ _ L) as (_ & Hh & _).
  apply launch_run in L as (_ & _ & _ & Hs & _ & Hfd & _ & alive & Hpr).
  exists p, alive. split; [done|].
  rewrite Hs, Hpr, Hh, Hfd. by rewrite F2, F1, P2, P1, H2, H1.
Qed.

Lemma X2_witness :
  ∃ p alive,
    planned Sample.online Sample.formula ∅ = Some p
    ∧ MongoService.server Sample.service = 0
    ∧ w_procs Sample.started
      = [] ++ [{| p_file := execFile p;
                  p_args :=
                    execArgs (Formula.execArgs Sample.formula)
                      (prop (applyDefaults Sample.online Sample.formula ∅)
                         "port") (dataDir p)
                      (prop (applyDefaults Sample.online Sample.formula ∅)
                         "args");
                  p_stdout := 0; p_stderr := 0;
                  p_alive := alive; p_cancels := 0; p_signals := 0 |}]
    ∧ w_hooks Sample.started = [] ++ [0]
    ∧ w_fds Sample.started = [] ++ [logFile p].
Proof.
  apply (X2_resolved_call_adds_one_child_hook_descriptor Sample.online
           Sample.formula ∅ Sample.empty Sample.started Sample.service).
  vm_compute. reflexivity.
Defined.

(** ** Order of the calls *)

(** X3: the calls of a resolved call, in order: the data directory is
    made first; then come the existence checks, the download if the archive
    is missing and the decompression if the package is not installed; only
    then the logs directory is made, the old log file removed and the new
    one opened; the child is spawned after all of that, and the
    registration of the shutdown hook is the last call. *)
Theorem X3_resolved_call_order
    (h : host) (formula : Formula.t) (opts : options) (w w' : World)
    (svc : MongoService.t) :
  startMongo h formula opts w = (w', inr svc) →
  ∃ platform p,
    findPlatform formula (applyDefaults h formula opts) = Some platform
    ∧ planned h formula opts = Some p
    ∧ w_trace w'
      = w_trace w
        ++ EvMkdirp (dataDir p)
           :: install_events platform p (mkdirp (dataDir p) w).1
        ++ launch_events formula (applyDefaults h formula opts) p
             (length (w_fds w)) (length (w_procs w)).
Proof.
  intros (platform & p & w1 & w2 & Hf & Hp & M & I & L)%startMongo_resolved.
  exists platform, p. split; [done|]. split; [done|].
  pose proof (mkdirp_handles (dataDir p) w) as (F1 & P1 & _).
  pose proof (mkdirp_trace (dataDir p) w) as T1.
  pose proof (ensureInstalled_run h platform p w1) as [(F2 & P2 & _) T2].
  rewrite M in *. rewrite I in *. simpl in *.
  apply launch_full in L as (T3 & _).
  rewrite T3, T2, T1, F2, F1, P2, P1. unfold install_events.
  rewrite <- !app_assoc. simpl. by rewrite <- !app_assoc.
Qed.

Lemma X3_witness :
  ∃ platform p,
    findPlatform Sample.formula
      (applyDefaults Sample.online Sample.formula ∅) = Some platform
    ∧ planned Sample.online Sample.formula ∅ = Some p
    ∧ w_trace Sample.started
      = w_trace Sample.empty
        ++ EvMkdirp (dataDir p)
           :: install_events platform p (mkdirp (dataDir p) Sample.empty).1
        ++ launch_events Sample.formula
             (applyDefaults Sample.online Sample.formula ∅) p
             (length (w_fds Sample.empty)) (length (w_procs Sample.empty)).
Proof.
  apply (X3_resolved_call_order Sample.online Sample.formula ∅ Sample.empty
           Sample.started Sample.service).
  vm_compute. reflexivity.
Defined.

(** X4: every start gets a fresh log: when a call resolves, the log file is
    an empty regular file, whatever was at that path before the call. *)
Theorem X4_log_file_is_fresh
    (h : host) (formula : Formula.t) (opts : options) (w w' : World)
    (svc : MongoService.t) :
  startMongo h formula opts w = (w', inr svc) →
  ∃ p,
    planned h formula opts = Some p
    ∧ Fs.node_at (w_fs w') (Path.key (logFile p)) = Some (File "").
Proof.
  intros (platform & p & w1 & w2 & _ & Hp & _ & _ & L)%startMongo_resolved.
  exists p. split; [done|]. by apply launch_full in L as (_ & _ & L).
Qed.

Lemma X4_witness :
  Fs.node_at (w_fs Restart.stale) (Path.key (logFile Sample.layout))
  = Some (File "old output")
  ∧ ∃ p,
      planned Sample.online Sample.formula ∅ = Some p
      ∧ Fs.node_at (w_fs Restart.again) (Path.key (logFile p))
        = Some (File "").
Proof.
  split; [vm_compute; reflexivity|].
  apply (X4_log_file_is_fresh Sample.online Sample.formula ∅ Restart.stale
           Restart.again Restart.service).
  vm_compute. reflexivity.
Defined.

(** ** Platform selection *)

(** X5: the platform used is an entry of [formula.platforms] that carries
    exactly the selected name, and the first such entry when several share
    the name.  A selected platform that is not a string (a number,
    [undefined]) matches no entry, so the call is rejected with the
    unsupported-platform error and the world untouched. *)
Theorem X5_platform_is_first_entry_with_the_name
    (h : host) (formula : Formula.t) (opts : options) :
  let cfg := applyDefaults h formula opts in
  (∀ pf, findPlatform formula cfg = Some pf →
     ∃ before after,
       Formula.platforms formula = before ++ pf :: after
       ∧ Js.str (Platform.name pf) = prop cfg "platform"
       ∧ Forall (λ q, Js.str (Platform.name q) ≠ prop cfg "platform")
                before)
  ∧ (is_str (prop cfg "platform") = false →
     ∀ w, ∃ msg, startMongo h formula opts w = (w, inl (Error msg))).
Proof.
  intros cfg. split.
  - unfold findPlatform. generalize (Formula.platforms formula) as l.
    induction l as [|q l IH]; intros pf; [done|]. simpl.
    case_bool_decide as E.
    + intros [= <-]. exists [], l. by repeat split.
    + intros (before & after & -> & Hn & Hb)%IH.
      exists (q :: before), after. repeat split; [done|]. by constructor.
  - intros Hs w. eexists. unfold startMongo.
    rewrite findPlatform_none; [done|].
    apply Forall_forall. intros q _ E. subst cfg. by rewrite <- E in Hs.
Qed.

Lemma X5_witness :
  ∃ before after,
    Formula.platforms Sample.formula
    = before
      ++ {| Platform.name := "darwin";
            Platform.source := "https://dl.example.org/osx/mongodb-4.0.6.zip" |}
         :: after
    ∧ Js.str "darwin"
      = prop (applyDefaults Sample.online Sample.formula
                {[ "platform" := Js.str "darwin" ]}) "platform"
    ∧ Forall (λ q, Js.str (Platform.name q)
                   ≠ prop (applyDefaults Sample.online Sample.formula
                             {[ "platform" := Js.str "darwin" ]}) "platform")
             before.
Proof.
  apply (proj1 (X5_platform_is_first_entry_with_the_name Sample.online
                  Sample.formula {[ "platform" := Js.str "darwin" ]})
           {| Platform.name := "darwin";
              Platform.source :=
                "https://dl.example.org/osx/mongodb-4.0.6.zip" |}).
  vm_compute. reflexivity.
Defined.

(** ** Path planning on arbitrary options *)

Lemma visit_error (l : list Js.val) (e : error) :
  Path.visit l = inl e → ∃ m, e = TypeError m.
Proof.
  induction l as [|v l IH]; [done|]. simpl.
  destruct v as [|s|z|a]; try (intros [= <-]; by eexists).
  case_bool_decide; [done|]. destruct (Path.is_absolute s); [done|].
  destruct (Path.visit l) as [e'|[ps a]]; [|done].
  intros [= <-]. by apply IH.
Qed.

Lemma visit_strings (l : list Js.val) :
  Forall (λ v, is_str v = true) l → ∃ ps a, Path.visit l = inr (ps, a).
Proof.
  induction 1 as [|v l Hv _ (ps & a & IH)]; [by eexists _, _|].
  destruct v as [|s|z|a']; try done. simpl.
  case_bool_decide; [by eexists _, _|].
  destruct (Path.is_absolute s); [by eexists _, _|].
  rewrite IH. by eexists _, _.
Qed.

Lemma resolve_error (cwd : string) (args : list Js.val) (e : error) :
  Path.resolve cwd args = inl e → ∃ m, e = TypeError m.
Proof.
  unfold Path.resolve.
  destruct (Path.visit _) as [e'|[ps a]] eqn:V; [|done].
  intros [= <-]. by eapply visit_error.
Qed.

Lemma resolve_strings_total (cwd : string) (args : list Js.val) :
  Forall (λ v, is_str v = true) args → ∃ p, Path.resolve cwd args = inr p.
Proof.
  intros H. unfold Path.resolve.
  destruct (visit_strings (reverse args ++ [Js.str cwd])) as (ps & a & ->).
  { apply Forall_app. split; [by apply Forall_reverse|by repeat constructor]. }
  by eexists.
Qed.

Lemma visit_absolute (cwd : string) (l : list Js.val) (ps : list string)
    (a : bool) :
  Path.is_absolute cwd = true →
  Path.visit (l ++ [Js.str cwd]) = inr (ps, a) → a = true.
Proof.
  intros Hc. revert ps. induction l as [|v l IH]; intros ps; simpl.
  - rewrite Hc. destruct cwd; [done|].
    rewrite bool_decide_eq_false_2 by done. by intros [= _ <-].
  - destruct v as [|s|z|a']; try done.
    case_bool_decide; [by apply IH|].
    destruct (Path.is_absolute s); [by intros [= _ <-]|].
    destruct (Path.visit (l ++ [Js.str cwd])) as [e|[ps' a'']]; [done|].
    intros [= _ <-]. by eapply IH.
Qed.

Lemma norm_step_keeps_plain (acc : list string) (seg : string) :
  Js.free_of "/" seg = true →
  Forall (λ s, Path.plain s = true) acc →
  Forall (λ s, Path.plain s = true) (Path.norm_step false acc seg).
Proof.
  intros Fs Ha. unfold Path.norm_step.
  case_bool_decide as E1; [done|]. case_bool_decide as E2.
  - destruct (last acc) as [l|] eqn:L; [|done].
    case_bool_decide as E3; [|by apply Forall_take].
    subst l. apply last_Some_elem_of in L.
    rewrite Forall_forall in Ha. by specialize (Ha _ L).
  - apply Forall_app. split; [done|]. repeat constructor.
    unfold Path.plain. rewrite Fs, andb_true_r.
    apply bool_decide_eq_true. naive_solver.
Qed.

Lemma norm_keeps_plain (segs acc : list string) :
  Forall (λ s, Js.free_of "/" s = true) segs →
  Forall (λ s, Path.plain s = true) acc →
  Forall (λ s, Path.plain s = true) (foldl (Path.norm_step false) acc segs).
Proof.
  intros H. revert acc. induction H as [|s segs Hs _ IH]; intros acc Ha;
    [done|].
  simpl. apply IH. by apply norm_step_keeps_plain.
Qed.

Lemma segments_free (ps : list string) :
  Forall (λ s, Js.free_of "/" s = true) (ps ≫= Path.segments).
Proof.
  induction ps as [|p ps IH]; [done|]. rewrite bind_cons.
  apply Forall_app. split; [apply split_pieces_free|done].
Qed.

(** With an absolute working directory, whatever [path.resolve] returns
    is absolute and normalised. *)
Lemma resolve_normal (cwd : string) (args : list Js.val) (p : string) :
  Path.is_absolute cwd = true →
  Path.resolve cwd args = inr p → normal_path p.
Proof.
  intros Hc. unfold Path.resolve.
  destruct (Path.visit _) as [e|[ps a]] eqn:V; [done|].
  apply visit_absolute in V as ->; [|done]. intros [= <-].
  eexists. split; [reflexivity|]. unfold Path.norm_segs.
  apply norm_keeps_plain; [apply segments_free|done].
Qed.

Lemma key_of_segments (segs : list string) :
  Forall (λ s, Path.plain s = true) segs →
  Path.key (Path.of_segments segs) = segs.
Proof. apply norm_of_segments. Qed.

(** Below a normalised directory, a plain name resolves to the directory's
    segments followed by the name. *)
Lemma resolve_child (cwd dir name child : string) :
  normal_path dir → Path.plain name = true →
  Path.resolve cwd [Js.str dir; Js.str name] = inr child →
  normal_path child ∧ Path.key child = Path.key dir ++ [name].
Proof.
  intros (segs & -> & Hs) Hn.
  pose proof (resolve_plain cwd segs [[name]] Hs
                ltac:(by repeat constructor)) as R.
  change (Js.str <$> (Js.join "/" <$> [[name]])) with [Js.str name] in R.
  rewrite R. intros [= <-]. cbn [concat app].
  assert (Forall (λ s, Path.plain s = true) (segs ++ [name])) as Hc
    by (apply Forall_app; split; [done|by repeat constructor]).
  split; [by eexists|]. by rewrite !key_of_segments.
Qed.

(** X6: with an absolute working directory, every path that planning
    returns is absolute and normalised, whatever the options contain (a
    [..] or a doubled slash in a name is resolved before any directory is
    made); the log file lies directly in the logs directory and the
    extraction directory directly in the source directory. *)
Theorem X6_planned_paths_are_normalised
    (cwd : string) (formula : Formula.t) (platform : Platform.t)
    (opts : options) (p : paths) :
  Path.is_absolute cwd = true →
  resolvePaths cwd formula platform opts = inr p →
  normal_path (dataDir p) ∧ normal_path (logsDir p)
  ∧ normal_path (logFile p) ∧ normal_path (sourceDir p)
  ∧ normal_path (sourceFile p) ∧ normal_path (extractDir p)
  ∧ normal_path (execFile p)
  ∧ Path.key (logFile p) = Path.key (logsDir p) ++ ["logs.txt"]
  ∧ Path.key (extractDir p) = Path.key (sourceDir p) ++ ["unpacked"].
Proof.
  intros Hc. unfold resolvePaths.
  repeat match goal with
         | |- context [bind_sum (Path.resolve cwd ?l) _] =>
             let r := fresh "r" in let E := fresh "E" in
             destruct (Path.resolve cwd l) as [?|r] eqn:E;
             cbn [bind_sum]; [done|]
         end.
  intros [= <-]. cbn [dataDir logsDir logFile sourceDir sourceFile
                      extractDir execFile].
  pose proof (resolve_normal _ _ _ Hc E) as N1.
  pose proof (resolve_normal _ _ _ Hc E0) as N2.
  pose proof (resolve_normal _ _ _ Hc E2) as N4.
  pose proof (resolve_normal _ _ _ Hc E3) as N5.
  pose proof (resolve_normal _ _ _ Hc E5) as N7.
  destruct (resolve_child cwd _ "logs.txt" _ N2 eq_refl E1) as [N3 K3].
  destruct (resolve_child cwd _ "unpacked" _ N4 eq_refl E4) as [N6 K6].
  by repeat split.
Qed.

Lemma X6_witness :
  ∃ p,
    planned Sample.online Sample.formula {[ "name" := Js.str "a//../b/." ]}
    = Some p
    ∧ dataDir p = "/tmp/mongo/data/b/mongodb"
    ∧ Path.key (logFile p) = Path.key (logsDir p) ++ ["logs.txt"].
Proof.
  destruct (planned Sample.online Sample.formula
              {[ "name" := Js.str "a//../b/." ]}) as [p|] eqn:P;
    [|vm_compute in P; discriminate].
  exists p. split; [done|].
  assert (resolvePaths "/home/u" Sample.formula
            {| Platform.name := "linux";
               Platform.source :=
                 "https://dl.example.org/linux/mongodb-4.0.6.tgz" |}
            (applyDefaults Sample.online Sample.formula
               {[ "name" := Js.str "a//../b/." ]}) = inr p) as R.
  { vm_compute in P. injection P as <-. vm_compute. reflexivity. }
  split.
  - vm_compute in P. by injection P as <-.
  - exact (proj1 (proj2 (proj2 (proj2 (proj2 (proj2 (proj2 (proj2
             (X6_planned_paths_are_normalised "/home/u" _ _ _ p
                eq_refl R))))))))).
Defined.

Lemma resolvePaths_error (cwd : string) (formula : Formula.t)
    (platform : Platform.t) (opts : options) (e : error) :
  resolvePaths cwd formula platform opts = inl e → ∃ m, e = TypeError m.
Proof.
  unfold resolvePaths.
  repeat match goal with
         | |- context [bind_sum (Path.resolve cwd ?l) _] =>
             let E := fresh "E" in
             destruct (Path.resolve cwd l) as [?|?] eqn:E;
             cbn [bind_sum];
             [intros [= <-]; by eapply resolve_error|]
         end.
  done.
Qed.

(** The first visited argument that is not a string makes [path.resolve]
    throw: the arguments after it are relative strings. *)
Lemma resolve_throws (cwd : string) (before after : list Js.val)
    (v : Js.val) :
  is_str v = false →
  Forall (λ x, ∃ s, x = Js.str s ∧ Path.is_absolute s = false) after →
  ∃ m, Path.resolve cwd (before ++ v :: after) = inl (TypeError m).
Proof.
  intros Hv Ha.
  assert (∀ rest, ∃ m,
            Path.visit (reverse after ++ [v] ++ rest) = inl (TypeError m))
    as H.
  { intros rest. apply Forall_reverse in Ha.
    induction Ha as [|x l (s & -> & Hs) _ [m IH]].
    - simpl. destruct v; try done; by eexists.
    - simpl. rewrite Hs. case_bool_decide; [by eexists|].
      simpl in IH. rewrite IH. by eexists. }
  destruct (H (reverse before ++ [Js.str cwd])) as [m Hm].
  exists m. unfold Path.resolve.
  replace (reverse (before ++ v :: after) ++ [Js.str cwd])
    with (reverse after ++ [v] ++ reverse before ++ [Js.str cwd])
    by by rewrite reverse_app, reverse_cons, <- !app_assoc.
  by rewrite Hm.
Qed.

(** X7: planning fails exactly on options that are not strings.  When
    [dir] and [name] are strings it always succeeds.  When it fails the
    rejection is a type error.  And with relative formula names, a [name]
    that is not a string, or a [dir] that is not a string beside a relative
    [name], makes the call reject with that type error before anything is
    touched: this is what an explicit [undefined] for either key does. *)
Theorem X7_planning_throws_on_non_string_options
    (h : host) (formula : Formula.t) (opts : options)
    (platform : Platform.t) :
  let cfg := applyDefaults h formula opts in
  findPlatform formula cfg = Some platform →
  (is_str (prop cfg "dir") = true → is_str (prop cfg "name") = true →
     ∃ p, planned h formula opts = Some p)
  ∧ (∀ w w' e, planned h formula opts = None →
       startMongo h formula opts w = (w', inl e) →
       w' = w ∧ ∃ m, e = TypeError m)
  ∧ (Path.is_absolute (Formula.name formula) = false →
     is_str (prop cfg "name") = false
     ∨ (is_str (prop cfg "dir") = false
        ∧ ∃ n, prop cfg "name" = Js.str n ∧ Path.is_absolute n = false) →
     ∃ m, ∀ w, startMongo h formula opts w = (w, inl (TypeError m))).
Proof.
  intros cfg Hf. subst cfg. split; [|split].
  - intros Hd Hn. unfold planned, resolvePaths. rewrite Hf.
    destruct (prop (applyDefaults h formula opts) "dir") as [|d| |];
      try done.
    destruct (prop (applyDefaults h formula opts) "name") as [|n| |];
      try done.
    repeat match goal with
           | |- context [bind_sum (Path.resolve ?c ?l) _] =>
               let x := fresh "x" in let E := fresh "E" in
               destruct (resolve_strings_total c l) as [x E];
               [by repeat constructor|];
               rewrite E; cbn [bind_sum]
           end.
    by eexists.
  - intros w w' e. unfold planned, startMongo. rewrite Hf.
    destruct (resolvePaths (cwd h) formula platform
                (applyDefaults h formula opts)) as [e'|p] eqn:R; [|done].
    intros _ [= <- <-]. split; [done|]. by eapply resolvePaths_error.
  - intros Hfn Hbad.
    assert (∃ m, Path.resolve (cwd h)
                   [prop (applyDefaults h formula opts) "dir";
                    Js.str "data";
                    prop (applyDefaults h formula opts) "name";
                    Js.str (Formula.name formula)] = inl (TypeError m))
      as [m R].
    { destruct Hbad as [Hn|(Hd & n & Hn & Hr)].
      - apply (resolve_throws (cwd h)
                 [prop (applyDefaults h formula opts) "dir"; Js.str "data"]
                 [Js.str (Formula.name formula)]); [done|].
        repeat constructor. by eexists.
      - rewrite Hn.
        apply (resolve_throws (cwd h) []
                 [Js.str "data"; Js.str n; Js.str (Formula.name formula)]);
          [done|].
        repeat constructor; by eexists. }
    exists m. intros w. unfold startMongo, resolvePaths. rewrite Hf, R.
    reflexivity.
Qed.

Lemma X7_witness :
  ∃ m, ∀ w,
    startMongo Sample.online Sample.formula {[ "dir" := Js.undefined ]} w
    = (w, inl (TypeError m)).
Proof.
  refine (proj2 (proj2 (X7_planning_throws_on_non_string_options
                          Sample.online Sample.formula
                          {[ "dir" := Js.undefined ]}
                          {| Platform.name := "linux";
                             Platform.source :=
                               "https://dl.example.org/linux/mongodb-4.0.6.tgz" |}
                          _)) _ _).
  - vm_compute. reflexivity.
  - reflexivity.
  - right. split; [vm_compute; reflexivity|].
    exists "default". split; vm_compute; reflexivity.
Defined.

(** ** What a call keeps on disk *)

Lemma download_keeps (h : host) (url dir file q : string) (w : World) :
  Fs.exists_at (w_fs w) q = true →
  Fs.exists_at (w_fs (download h url dir file w).1) q = true.
Proof.
  intros Hq. unfold download. steps.
  destruct (fetch h url) as [body|[part|]]; steps; [| |done].
  - pose proof (store_keeps (Path.join dir file) body q
                  (log (EvDownload url dir file) w) Hq) as S.
    by destruct (store _ _ _) as [w' [e|[]]].
  - pose proof (store_keeps (Path.join dir file) part q
                  (log (EvDownload url dir file) w) Hq) as S.
    by destruct (store _ _ _) as [w' [e|[]]].
Qed.

Lemma decompress_keeps (h : host) (file dir q : string) (strip : nat)
    (w : World) :
  Fs.exists_at (w_fs w) q = true →
  Fs.exists_at (w_fs (decompress h file dir strip w).1) q = true.
Proof.
  intros Hq. unfold decompress. steps.
  destruct (Fs.node_at (w_fs w) (Path.key file)) as [[|data]|]; try done.
  destruct (unpack h data) as [es|]; [|done].
  pose proof (extract_all_keeps dir strip
                (filter (λ e, strip_path strip e.1 ≠ ".") es) q
                (log (EvDecompress file dir strip) w) Hq) as X.
  by destruct (extract_all _ _ _ _) as [w' [x|[]]].
Qed.

(** A decompression that resolves read a regular file, which is still
    there afterwards. *)
Lemma decompress_keeps_archive (h : host) (file dir : string) (strip : nat)
    (w : World) :
  (decompress h file dir strip w).2 = inr tt →
  Fs.exists_at (w_fs (decompress h file dir strip w).1) file = true.
Proof.
  intros Hok. apply decompress_keeps. revert Hok.
  unfold decompress, Fs.exists_at. steps.
  by destruct (Fs.node_at (w_fs w) (Path.key file)) as [[|data]|].
Qed.

Section InstallKeeps.
Context (h : host) (platform : Platform.t) (p : paths).

Lemma ensureInstalled_keeps (q : string) (w : World) :
  Fs.exists_at (w_fs w) q = true →
  Fs.exists_at (w_fs (ensureInstalled h platform p w).1) q = true.
Proof.
  intros Hq. unfold ensureInstalled. steps.
  destruct (Fs.exists_at (w_fs w) (extractDir p)); steps;
    [destruct (Fs.exists_at (w_fs w) (execFile p)); steps; [done|]|].
  all: destruct (Fs.exists_at (w_fs w) (sourceFile p)); steps.
  all: try match goal with
       | |- context [download h ?u ?d ?f ?w0] =>
           pose proof (download_keeps h u d f q w0 Hq) as D;
           destruct (download h u d f w0) as [w2 [e|[]]]
       end; simpl in *; try done.
  all: match goal with
       | |- context [decompress h ?f ?d ?n ?w0] =>
           pose proof (decompress_keeps h f d q n w0) as T;
           destruct (decompress h f d n w0) as [w3 [e'|[]]]
       end; simpl in *; auto.
Qed.

(** When the block resolves after unpacking, the archive it unpacked is
    still on disk. *)
Lemma ensureInstalled_keeps_archive (w : World) :
  installed w p = false →
  (ensureInstalled h platform p w).2 = inr tt →
  Fs.exists_at (w_fs (ensureInstalled h platform p w).1) (sourceFile p)
  = true.
Proof.
  intros Hn. unfold installed in Hn. unfold ensureInstalled. steps.
  destruct (Fs.exists_at (w_fs w) (extractDir p)); simpl in Hn; steps;
    rewrite ?Hn; steps.
  all: destruct (Fs.exists_at (w_fs w) (sourceFile p)); steps.
  all: try match goal with
       | |- context [download h ?u ?d ?f ?w0] =>
           destruct (download h u d f w0) as [w2 [e|[]]]
       end; simpl in *; try done.
  all: match goal with
       | |- context [decompress h ?f ?d ?n ?w0] =>
           pose proof (decompress_keeps_archive h f d n w0) as T;
           destruct (decompress h f d n w0) as [w3 [e'|[]]]
       end; simpl in *; auto; done.
Qed.

End InstallKeeps.

Lemma remove_tree_keeps (k q : list string) (m : tree) :
  ¬ k `prefix_of` q →
  is_Some (Fs.node_at m q) → is_Some (Fs.node_at (Fs.remove_tree k m) q).
Proof.
  intros Hk. destruct q as [|s q]; [done|]. simpl. intros [n Hn].
  exists n. unfold Fs.remove_tree. by apply map_lookup_filter_Some.
Qed.

(** The launch blocks delete nothing but the old log file and what lies
    below its path. *)
Lemma launch_keeps (formula : Formula.t) (opts : options) (p : paths)
    (q : string) (w : World) :
  ¬ Path.key (logFile p) `prefix_of` Path.key q →
  Fs.exists_at (w_fs w) q = true →
  Fs.exists_at (w_fs (launch formula opts p w).1) q = true.
Proof.
  intros Hk. rewrite !exists_at_is_Some. intros [n Hn].
  unfold launch, mkdirp, remove, open, execa, onShutdown. steps.
  pose proof (mkdirs_keeps_node (Path.key (logsDir p)) [] _ _ _ Hn) as K.
  destruct (Fs.mkdirs [] (Path.key (logsDir p)) (w_fs w)) as [m [|]]; steps;
    [|eauto].
  assert (is_Some (Fs.node_at
                     (Fs.remove_tree (Path.key (logFile p)) m) (Path.key q)))
    as R by (apply remove_tree_keeps; eauto).
  destruct (Fs.write (Path.key (logFile p)) ""
              (Fs.remove_tree (Path.key (logFile p)) m)) as [m'|] eqn:W;
    steps; [|done].
  eapply write_keeps; eauto.
Qed.

(** X8: a call deletes nothing but the old log file: every path that
    exists before the call and is neither the planned log file nor below
    it still exists when the call ends, whether it resolves or rejects. *)
Theorem X8_call_deletes_only_the_log_file
    (h : host) (formula : Formula.t) (opts : options) (w : World)
    (q : string) :
  Fs.exists_at (w_fs w) q = true →
  (∀ p, planned h formula opts = Some p →
        ¬ Path.key (logFile p) `prefix_of` Path.key q) →
  Fs.exists_at (w_fs (startMongo h formula opts w).1) q = true.
Proof.
  intros Hq Hk. unfold planned in Hk. unfold startMongo.
  destruct (findPlatform formula (applyDefaults h formula opts))
    as [platform|]; [|done].
  destruct (resolvePaths (cwd h) formula platform
              (applyDefaults h formula opts)) as [e|p]; [done|].
  specialize (Hk p eq_refl). steps.
  pose proof (mkdirp_keeps_existing (dataDir p) q w Hq) as M.
  destruct (mkdirp (dataDir p) w) as [w1 [e|[]]]; simpl in M; [done|].
  pose proof (ensureInstalled_keeps h platform p q w1 M) as I.
  destruct (ensureInstalled h platform p w1) as [w2 [e|[]]]; simpl in I;
    [done|].
  by apply launch_keeps.
Qed.

Lemma X8_witness :
  Fs.exists_at (w_fs Restart.again) (sourceFile Sample.layout) = true.
Proof.
  apply (X8_call_deletes_only_the_log_file Sample.online Sample.formula ∅
           Restart.stale (sourceFile Sample.layout)).
  - vm_compute. reflexivity.
  - intros p Hp. vm_compute in Hp. injection Hp as <-.
    intros [k Hk]. vm_compute in Hk. discriminate Hk.
Defined.

Lemma startMongo_installed_quiet (h : host) (formula : Formula.t)
    (opts : options) (p : paths) (w : World) :
  planned h formula opts = Some p →
  installed w p = true →
  downloads (startMongo h formula opts w).1 = downloads w
  ∧ decompressions (startMongo h formula opts w).1 = decompressions w.
Proof.
  intros Hp [E1 E2]%andb_prop. unfold planned in Hp. unfold startMongo.
  destruct (findPlatform formula (applyDefaults h formula opts))
    as [platform|]; [|done].
  destruct (resolvePaths (cwd h) formula platform
              (applyDefaults h formula opts)) as [e|q]; [done|].
  injection Hp as ->. steps.
  pose proof (mkdirp_quiet (dataDir p) w) as [Q1 Q2].
  pose proof (mkdirp_keeps_existing (dataDir p) _ w E1) as K1.
  pose proof (mkdirp_keeps_existing (dataDir p) _ w E2) as K2.
  destruct (mkdirp (dataDir p) w) as [w1 [e|[]]]; simpl in *; [done|].
  rewrite ensureInstalled_skip
    by (unfold installed; by rewrite K1, K2).
  destruct (launch _ _ _ _) as [w3 r] eqn:L.
  apply launch_run in L as (L1 & L2 & _). simpl.
  rewrite L1, L2, !downloads_log, !decompressions_log by done. done.
Qed.

(** X9: when [extractDir] and [execFile] exist, a whole call neither
    fetches nor decompresses anything, even if the archive itself is no
    longer on disk. *)
Theorem X9_installed_package_needs_no_archive
    (h : host) (formula : Formula.t) (opts : options) (p : paths)
    (w : World) :
  planned h formula opts = Some p →
  installed w p = true →
  downloads (startMongo h formula opts w).1 = downloads w
  ∧ decompressions (startMongo h formula opts w).1 = decompressions w.
Proof. apply startMongo_installed_quiet. Qed.

Lemma X9_witness :
  let w := set_fs (Fs.remove_tree (Path.key (sourceFile Sample.layout))
                     (w_fs Sample.started)) Sample.started in
  Fs.exists_at (w_fs w) (sourceFile Sample.layout) = false
  ∧ downloads (startMongo Sample.online Sample.formula ∅ w).1 = downloads w.
Proof.
  intros w. split; [vm_compute; reflexivity|].
  refine (proj1 (X9_installed_package_needs_no_archive Sample.online
                   Sample.formula ∅ Sample.layout w _ _));
    vm_compute; reflexivity.
Defined.

(** X10: the install block never removes the archive: when it resolves
    after unpacking, the archive it read is still at [sourceFile], and
    whatever existed before the block exists after it, also when the block
    rejects. *)
Theorem X10_install_keeps_the_archive
    (h : host) (platform : Platform.t) (p : paths) (w : World) :
  let out := ensureInstalled h platform p w in
  (installed w p = false → out.2 = inr tt →
     Fs.exists_at (w_fs out.1) (sourceFile p) = true)
  ∧ (∀ q, Fs.exists_at (w_fs w) q = true →
          Fs.exists_at (w_fs out.1) q = true).
Proof.
  intros out. split.
  - apply ensureInstalled_keeps_archive.
  - intros q. apply ensureInstalled_keeps.
Qed.

Lemma X10_witness :
  Fs.exists_at
    (w_fs (ensureInstalled Sample.online
             {| Platform.name := "linux";
                Platform.source :=
                  "https://dl.example.org/linux/mongodb-4.0.6.tgz" |}
             Sample.layout Sample.empty).1)
    (sourceFile Sample.layout) = true.
Proof.
  apply (proj1 (X10_install_keeps_the_archive Sample.online _ Sample.layout
                  Sample.empty)); vm_compute; reflexivity.
Defined.

(** X11: after a call that resolved, a following call with the same plan
    fetches nothing, on any host: the first call left the package
    installed or the archive on disk.  This holds when the log file path
    is not a prefix of the cached paths, as is the case for plain names. *)
Theorem X11_second_call_fetches_nothing
    (h : host) (formula : Formula.t) (opts : options) (p : paths)
    (w w1 : World) (svc : MongoService.t) :
  startMongo h formula opts w = (w1, inr svc) →
  planned h formula opts = Some p →
  ¬ Path.key (logFile p) `prefix_of` Path.key (sourceFile p) →
  ¬ Path.key (logFile p) `prefix_of` Path.key (extractDir p) →
  ¬ Path.key (logFile p) `prefix_of` Path.key (execFile p) →
  (installed w1 p = true ∨ Fs.exists_at (w_fs w1) (sourceFile p) = true)
  ∧ ∀ h', planned h' formula opts = Some p →
          downloads (startMongo h' formula opts w1).1 = downloads w1.
Proof.
  intros Hrun Hp K1 K2 K3.
  apply startMongo_resolved in Hrun
    as (platform & p' & wa & wb & _ & Hp' & M & I & L).
  assert (p' = p) as -> by congruence.
  assert (installed w1 p = true ∨ Fs.exists_at (w_fs w1) (sourceFile p) = true)
    as Hw1.
  { destruct (installed wa p) eqn:Ha.
    - left. apply andb_prop in Ha as [A1 A2]. unfold installed.
      pose proof (ensureInstalled_keeps h platform p _ wa A1) as B1.
      pose proof (ensureInstalled_keeps h platform p _ wa A2) as B2.
      rewrite I in B1, B2. simpl in B1, B2.
      pose proof (launch_keeps formula (applyDefaults h formula opts) p _ wb
                    K2 B1) as C1.
      pose proof (launch_keeps formula (applyDefaults h formula opts) p _ wb
                    K3 B2) as C2.
      rewrite L in C1, C2. simpl in C1, C2. by rewrite C1, C2.
    - right.
      pose proof (ensureInstalled_keeps_archive h platform p wa Ha) as B.
      rewrite I in B. simpl in B. specialize (B eq_refl).
      pose proof (launch_keeps formula (applyDefaults h formula opts) p _ wb
                    K1 B) as C.
      by rewrite L in C. }
  split; [done|]. intros h' Hp2. destruct Hw1 as [Hi|Hc].
  - by apply (startMongo_installed_quiet h' formula opts p w1).
  - by apply (startMongo_no_download h' formula opts p w1).
Qed.

Lemma X11_witness :
  downloads (startMongo Sample.flaky Sample.formula ∅ Sample.started).1
  = downloads Sample.started.
Proof.
  refine (proj2 (X11_second_call_fetches_nothing Sample.online
                   Sample.formula ∅ Sample.layout Sample.empty
                   Sample.started Sample.service _ _ _ _ _)
            Sample.flaky _);
    try (vm_compute; reflexivity);
    intros [k Hk]; vm_compute in Hk; discriminate Hk.
Defined.

(** ** More on the argument list *)

Lemma join_space_free (data : string) (l : list string) :
  Forall (λ s, Js.free_of " " s = true) l →
  Js.free_of " " data = false → data ∉ l.
Proof.
  intros Hl Hd Hin. rewrite Forall_forall in Hl.
  specialize (Hl _ Hin). congruence.
Qed.

(** X12: the arguments that come from the template are never an empty
    list (an empty template gives one empty argument), none of them holds
    a space, and joined by single spaces they give the substituted template
    back.  So a data directory whose path holds a space is never passed as
    one argument.  Extra arguments are appended only when [args] is an
    array. *)
Theorem X12_template_arguments
    (template : string) (port : Js.val) (data : string) (args : Js.val) :
  let text := Js.replace (Js.replace template "{port}" (Js.to_string port))
                "{data}" data in
  let base := Js.split " " text in
  execArgs template port data args = base ++ extra_args args
  ∧ base ≠ []
  ∧ Forall (λ s, Js.free_of " " s = true) base
  ∧ Js.join " " base = text
  ∧ (Js.free_of " " data = false → data ∉ base)
  ∧ ((∀ l, args ≠ Js.arr l) → execArgs template port data args = base).
Proof.
  intros text base. subst base.
  split; [by destruct args|]. split; [apply split_not_nil|].
  split; [apply split_pieces_free|]. split; [apply join_split|].
  split.
  - apply join_space_free, split_pieces_free.
  - intros Hn. unfold execArgs. fold text.
    destruct args; rewrite ?app_nil_r; try done. by destruct (Hn l).
Qed.

Lemma X12_witness :
  "/my dir/data"
  ∉ Js.split " "
      (Js.replace
         (Js.replace "--port {port} --dbpath {data}" "{port}"
            (Js.to_string (Js.num 27111)))
         "{data}" "/my dir/data").
Proof.
  apply (proj1 (proj2 (proj2 (proj2 (proj2
           (X12_template_arguments "--port {port} --dbpath {data}"
              (Js.num 27111) "/my dir/data" Js.undefined)))))).
  reflexivity.
Defined.

Lemma substitution_app (m b e x y : string) :
  no_dollar x = true →
  Js.substitution m b e (x +:+ y) = x +:+ Js.substitution m b e y.
Proof.
  unfold no_dollar. induction x as [|a x IH]; [done|].
  intros [Ha Hx]%andb_prop. apply negb_true_iff in Ha.
  rewrite !append_cons. cbn [Js.substitution]. rewrite Ha. by rewrite IH.
Qed.

Lemma replace_dollars (t pat x y : string) :
  no_dollar x = true → no_dollar y = true →
  Js.replace t pat (x +:+ "$$" +:+ y) = replace_first pat (x +:+ "$" +:+ y) t
  ∧ Js.replace t pat (x +:+ "$&" +:+ y)
    = replace_first pat (x +:+ pat +:+ y) t.
Proof.
  intros Hx Hy. unfold Js.replace, replace_first.
  destruct (Js.cut pat t) as [[b e]|]; [|done].
  rewrite (substitution_app pat b e x ("$$" +:+ y)) by done.
  rewrite (substitution_app pat b e x ("$&" +:+ y)) by done.
  change ("$$" +:+ y) with (String "$" (String "$" y)).
  change ("$&" +:+ y) with (String "$" (String "&" y)).
  cbn [Js.substitution]. rewrite !Ascii.eqb_refl.
  change (Ascii.eqb "&" "$") with false. cbn iota.
  by rewrite !substitution_no_dollar.
Qed.

(** X13: a dollar sign in the data directory is read by [replace] as a
    replacement pattern.  Where the path holds two dollar signs in a row
    the argument holds one, and where it holds a dollar sign and an
    ampersand the argument holds the placeholder [{data}] again: the child
    is then given another directory than the one that was created. *)
Theorem X13_dollar_patterns_in_data_directory
    (template : string) (port : Js.val) (x y : string) (args : Js.val) :
  no_dollar (Js.to_string port) = true →
  no_dollar x = true → no_dollar y = true →
  execArgs template port (x +:+ "$$" +:+ y) args
  = Js.split " "
      (replace_first "{data}" (x +:+ "$" +:+ y)
         (replace_first "{port}" (Js.to_string port) template))
    ++ extra_args args
  ∧ execArgs template port (x +:+ "$&" +:+ y) args
    = Js.split " "
        (replace_first "{data}" (x +:+ "{data}" +:+ y)
           (replace_first "{port}" (Js.to_string port) template))
      ++ extra_args args.
Proof.
  intros Hp Hx Hy. unfold execArgs. rewrite (replace_no_dollar _ _ _ Hp).
  destruct (replace_dollars
              (replace_first "{port}" (Js.to_string port) template)
              "{data}" x y Hx Hy) as [-> ->].
  by destruct args.
Qed.

Lemma X13_witness :
  execArgs "--dbpath {data}" (Js.num 1) ("/srv/a" +:+ "$$" +:+ "b") Js.undefined
  = ["--dbpath"; "/srv/a$b"].
Proof.
  etransitivity.
  - apply (proj1 (X13_dollar_patterns_in_data_directory "--dbpath {data}"
                    (Js.num 1) "/srv/a" "b" Js.undefined
                    eq_refl eq_refl eq_refl)).
  - reflexivity.
Defined.

(** X14: a template without a placeholder is passed on as it is: when
    [{port}] and [{data}] do not occur in it, the arguments are its pieces
    and neither the port nor the data directory reaches the child. *)
Theorem X14_template_without_placeholders
    (template : string) (port : Js.val) (data : string) (args : Js.val) :
  (∀ a b, template ≠ a +:+ "{port}" +:+ b) →
  (∀ a b, template ≠ a +:+ "{data}" +:+ b) →
  execArgs template port data args
  = Js.split " " template ++ extra_args args.
Proof.
  intros Hp Hd. unfold execArgs, Js.replace.
  destruct (Js.cut "{port}" template) as [[b e]|] eqn:C1.
  { apply cut_some in C1. by destruct (Hp b e). }
  destruct (Js.cut "{data}" template) as [[b e]|] eqn:C2.
  { apply cut_some in C2. by destruct (Hd b e). }
  by destruct args.
Qed.

Lemma prefix_own (pat b : string) : String.prefix pat (pat +:+ b) = true.
Proof.
  induction pat as [|c pat IH]; [by destruct b|].
  rewrite append_cons. simpl. by destruct (ascii_dec c c).
Qed.

(** [Js.cut] misses no occurrence. *)
Lemma cut_finds (pat a b : string) :
  is_Some (Js.cut pat (a +:+ pat +:+ b)).
Proof.
  induction a as [|c a IH].
  - rewrite append_empty. destruct (pat +:+ b) eqn:E; cbn [Js.cut];
      rewrite <- ?E, prefix_own; eauto.
  - rewrite append_cons. cbn [Js.cut].
    destruct (String.prefix pat _); [eauto|].
    destruct IH as [[b' e'] ->]. eauto.
Qed.

Lemma X14_witness :
  execArgs "--quiet" (Js.num 27111) "/x/data" (Js.arr ["--fork"])
  = ["--quiet"; "--fork"].
Proof.
  etransitivity.
  - apply (X14_template_without_placeholders "--quiet" (Js.num 27111)
             "/x/data" (Js.arr ["--fork"]));
      intros a b E;
      [pose proof (cut_finds "{port}" a b) as [r C]
      |pose proof (cut_finds "{data}" a b) as [r C]];
      rewrite <- E in C; vm_compute in C; discriminate C.
  - reflexivity.
Defined.

(** ** No retries *)

Section Counts.
Context (h : host) (platform : Platform.t) (p : paths).


End Counts.



(** ** Several services *)

Lemma startMongo_child (h : host) (formula : Formula.t) (opts : options)
    (w w' : World) (svc : MongoService.t) :
  startMongo h formula opts w = (w', inr svc) →
  MongoService.server svc = length (w_procs w)
  ∧ MongoService.close svc = close (length (w_procs w))
  ∧ ∃ pr, w_procs w' = w_procs w ++ [pr] ∧ p_stdout pr = length (w_fds w)
          ∧ length (w_fds w') = S (length (w_fds w)).
Proof.
  intros (platform & p & w1 & w2 & _ & Hp & M & I & L)%startMongo_resolved.
  pose proof (mkdirp_handles (dataDir p) w) as (F1 & P1 & _).
  pose proof (ensureInstalled_run h platform p w1) as [(F2 & P2 & _) _].
  rewrite M in *. rewrite I in *. simpl in *.
  apply launch_run in L as (_ & _ & _ & Hs & Hc & Hfd & _ & alive & Hpr).
  rewrite Hs, Hc, Hpr, Hfd, P2, P1, F2, F1.
  repeat split. eexists. repeat split.
  rewrite length_app. simpl. lia.
Qed.

(** X16: services are independent.  Two calls that resolve one after the
    other return different children with different log descriptors; the
    second call leaves the first child as it was, and closing either
    service leaves the other child untouched. *)
Theorem X16_services_are_independent
    (h1 h2 : host) (f1 f2 : Formula.t) (o1 o2 : options)
    (w0 w1 w2 : World) (s1 s2 : MongoService.t) :
  startMongo h1 f1 o1 w0 = (w1, inr s1) →
  startMongo h2 f2 o2 w1 = (w2, inr s2) →
  MongoService.server s1 ≠ MongoService.server s2
  ∧ (∃ c1 c2,
       w_procs w2 !! MongoService.server s1 = Some c1
       ∧ w_procs w2 !! MongoService.server s2 = Some c2
       ∧ w_procs w1 !! MongoService.server s1 = Some c1
       ∧ p_stdout c1 ≠ p_stdout c2)
  ∧ (∀ w, w_procs (MongoService.close s1 w).1 !! MongoService.server s2
          = w_procs w !! MongoService.server s2)
  ∧ (∀ w, w_procs (MongoService.close s2 w).1 !! MongoService.server s1
          = w_procs w !! MongoService.server s1).
Proof.
  intros (S1 & C1 & c1 & P1 & O1 & L1)%startMongo_child
         (S2 & C2 & c2 & P2 & O2 & L2)%startMongo_child.
  assert (length (w_procs w1) = S (length (w_procs w0))) as Len
    by (rewrite P1, length_app; simpl; lia).
  rewrite S1, S2, C1, C2, Len. split; [lia|]. split.
  - exists c1, c2. rewrite P2, P1.
    split.
    { rewrite lookup_app_l by (rewrite length_app; simpl; lia).
      by rewrite lookup_app_r, Nat.sub_diag by lia. }
    split.
    { rewrite lookup_app_r by (rewrite length_app; simpl; lia).
      rewrite length_app. simpl.
      by replace (S (length (w_procs w0)) - (length (w_procs w0) + 1))
        with 0 by lia. }
    split; [by rewrite lookup_app_r, Nat.sub_diag by lia|].
    rewrite O1, O2. lia.
  - split; intros w; rewrite close_run; simpl;
      by rewrite list_lookup_alter_ne by lia.
Qed.

Lemma X16_witness :
  MongoService.server Sample.service ≠ MongoService.server Restart.service.
Proof.
  refine (proj1 (X16_services_are_independent Sample.online Sample.online
                   Sample.formula Sample.formula ∅ ∅ Sample.empty
                   Sample.started
                   (startMongo Sample.online Sample.formula ∅
                      Sample.started).1
                   Sample.service Restart.service _ _)).
  - vm_compute. reflexivity.
  - vm_compute. reflexivity.
Defined.

(** ** Directories at the time of the spawn *)

Lemma mkdirp_creates (p : string) (w w1 : World) :
  mkdirp p w = (w1, inr tt) →
  Fs.node_at (w_fs w1) (Path.key p) = Some Dir.
Proof.
  unfold mkdirp. steps.
  destruct (Fs.mkdirs [] (Path.key p) (w_fs w)) as [m [|]] eqn:Mk; [|done].
  intros [= <-]. simpl. by eapply mkdirs_creates_node.
Qed.

Lemma write_keeps_dir (k q : list string) (data : string) (m m' : tree) :
  Fs.write k data m = Some m' →
  Fs.node_at m q = Some Dir → Fs.node_at m' q = Some Dir.
Proof.
  unfold Fs.write. destruct k as [|s k]; [done|].
  destruct (Fs.node_at m (Fs.parent (s :: k))) as [[|]|]; try done.
  destruct q as [|t q]; [done|]. simpl.
  destruct (m !! (s :: k)) as [[|]|] eqn:E; try done; intros [= <-] Hq;
    (destruct (decide (s :: k = t :: q)) as [Heq|];
       [rewrite Heq in E; congruence | by rewrite lookup_insert_ne]).
Qed.

Lemma store_keeps_dir (dest data : string) (q : list string) (w : World) :
  Fs.node_at (w_fs w) q = Some Dir →
  Fs.node_at (w_fs (store dest data w).1) q = Some Dir.
Proof.
  intros Hq. unfold store.
  pose proof (mkdirs_keeps_node (Fs.parent (Path.key dest)) [] _ _ _ Hq) as K.
  destruct (Fs.mkdirs [] (Fs.parent (Path.key dest)) (w_fs w)) as [m [|]];
    simpl in *; [|done].
  destruct (Fs.write (Path.key dest) data m) as [m'|] eqn:W; simpl; [|done].
  by eapply write_keeps_dir.
Qed.

Lemma extract_all_keeps_dir (dir : string) (strip : nat)
    (es : list (string * node)) (q : list string) (w : World) :
  Fs.node_at (w_fs w) q = Some Dir →
  Fs.node_at (w_fs (extract_all dir strip es w).1) q = Some Dir.
Proof.
  revert w. induction es as [|e es IH]; intros w Hq; [done|].
  simpl. unfold bind.
  assert (Fs.node_at (w_fs (extract_entry dir strip e w).1) q = Some Dir)
    as K.
  { unfold extract_entry. destruct (e.2); [|by apply store_keeps_dir].
    pose proof (mkdirs_keeps_node
                  (Path.key (Path.join dir (strip_path strip e.1))) []
                  _ _ _ Hq) as K.
    by destruct (Fs.mkdirs _ _ _) as [m ok]. }
  destruct (extract_entry dir strip e w) as [w1 [x|[]]]; [done|].
  by apply IH.
Qed.

Section InstallDirs.
Context (h : host) (platform : Platform.t) (p : paths).

Lemma ensureInstalled_keeps_dir (q : list string) (w : World) :
  Fs.node_at (w_fs w) q = Some Dir →
  Fs.node_at (w_fs (ensureInstalled h platform p w).1) q = Some Dir.
Proof.
  intros Hq.
  assert (∀ u d f w0, w_fs w0 = w_fs w →
            Fs.node_at (w_fs (download h u d f w0).1) q = Some Dir) as D.
  { intros u d f w0 E. unfold download. steps. rewrite <- E in Hq.
    destruct (fetch h u) as [body|[part|]]; steps; [| |done].
    - pose proof (store_keeps_dir (Path.join d f) body q
                    (log (EvDownload u d f) w0) Hq) as S.
      by destruct (store _ _ _) as [w' [e|[]]].
    - pose proof (store_keeps_dir (Path.join d f) part q
                    (log (EvDownload u d f) w0) Hq) as S.
      by destruct (store _ _ _) as [w' [e|[]]]. }
  assert (∀ f d n w0, Fs.node_at (w_fs w0) q = Some Dir →
            Fs.node_at (w_fs (decompress h f d n w0).1) q = Some Dir) as Z.
  { intros f d n w0 H0. unfold decompress. steps.
    destruct (Fs.node_at (w_fs w0) (Path.key f)) as [[|data]|]; try done.
    destruct (unpack h data) as [es|]; [|done].
    pose proof (extract_all_keeps_dir d n
                  (filter (λ e, strip_path n e.1 ≠ ".") es) q
                  (log (EvDecompress f d n) w0) H0) as X.
    by destruct (extract_all _ _ _ _) as [w' [x|[]]]. }
  unfold ensureInstalled. steps.
  destruct (Fs.exists_at (w_fs w) (extractDir p)); steps;
    [destruct (Fs.exists_at (w_fs w) (execFile p)); steps; [done|]|].
  all: destruct (Fs.exists_at (w_fs w) (sourceFile p)); steps.
  all: try match goal with
       | |- context [download h ?u ?d ?f ?w0] =>
           pose proof (D u d f w0 eq_refl) as D0;
           destruct (download h u d f w0) as [w2 [e|[]]]
       end; simpl in *; try done.
  all: match goal with
       | |- context [decompress h ?f ?d ?n ?w0] =>
           pose proof (Z f d n w0) as Z0;
           destruct (decompress h f d n w0) as [w3 [e'|[]]]
       end; simpl in *; auto.
Qed.

End InstallDirs.

Lemma launch_keeps_dir (formula : Formula.t) (opts : options) (p : paths)
    (q : list string) (w : World) :
  ¬ Path.key (logFile p) `prefix_of` q →
  Fs.node_at (w_fs w) q = Some Dir →
  Fs.node_at (w_fs (launch formula opts p w).1) q = Some Dir.
Proof.
  intros Hk Hq.
  unfold launch, mkdirp, remove, open, execa, onShutdown. steps.
  pose proof (mkdirs_keeps_node (Path.key (logsDir p)) [] _ _ _ Hq) as K.
  destruct (Fs.mkdirs [] (Path.key (logsDir p)) (w_fs w)) as [m [|]]; steps;
    [|done].
  assert (Fs.node_at (Fs.remove_tree (Path.key (logFile p)) m) q = Some Dir)
    as R.
  { destruct q as [|t q]; [done|]. simpl in *. unfold Fs.remove_tree.
    by apply map_lookup_filter_Some. }
  destruct (Fs.write (Path.key (logFile p)) ""
              (Fs.remove_tree (Path.key (logFile p)) m)) as [m'|] eqn:W;
    steps; [|done].
  by eapply write_keeps_dir.
Qed.

(** X17: when the child is spawned its directories are in place: after a
    call that resolves, the data directory passed to the child and the
    logs directory both exist and are directories.  This holds when the
    log file path is not a prefix of theirs, as is the case for plain
    names. *)
Theorem X17_directories_exist_after_start
    (h : host) (formula : Formula.t) (opts : options) (p : paths)
    (w w' : World) (svc : MongoService.t) :
  startMongo h formula opts w = (w', inr svc) →
  planned h formula opts = Some p →
  ¬ Path.key (logFile p) `prefix_of` Path.key (dataDir p) →
  ¬ Path.key (logFile p) `prefix_of` Path.key (logsDir p) →
  Fs.node_at (w_fs w') (Path.key (dataDir p)) = Some Dir
  ∧ Fs.node_at (w_fs w') (Path.key (logsDir p)) = Some Dir.
Proof.
  intros Hrun Hp K1 K2.
  apply startMongo_resolved in Hrun
    as (platform & p' & wa & wb & _ & Hp' & M & I & L).
  assert (p' = p) as -> by congruence. split.
  - apply mkdirp_creates in M.
    pose proof (ensureInstalled_keeps_dir h platform p _ wa M) as B.
    rewrite I in B. simpl in B.
    pose proof (launch_keeps_dir formula (applyDefaults h formula opts) p _
                  wb K1 B) as C.
    by rewrite L in C.
  - revert L. unfold launch, mkdirp, remove, open, execa, onShutdown. steps.
    destruct (Fs.mkdirs [] (Path.key (logsDir p)) (w_fs wb)) as [m [|]]
      eqn:Mk; steps; [|done].
    apply mkdirs_creates_node in Mk.
    assert (Fs.node_at (Fs.remove_tree (Path.key (logFile p)) m)
              (Path.key (logsDir p)) = Some Dir) as R.
    { destruct (Path.key (logsDir p)) as [|t q] eqn:E; [done|].
      simpl in *. unfold Fs.remove_tree. by apply map_lookup_filter_Some. }
    destruct (Fs.write (Path.key (logFile p)) ""
                (Fs.remove_tree (Path.key (logFile p)) m)) as [m'|] eqn:W;
      steps; [|done].
    intros [= <- _]. simpl. by eapply write_keeps_dir.
Qed.

Lemma X17_witness :
  Fs.node_at (w_fs Restart.again) (Path.key (dataDir Sample.layout))
  = Some Dir.
Proof.
  refine (proj1 (X17_directories_exist_after_start Sample.online
                   Sample.formula ∅ Sample.layout Restart.stale
                   Restart.again Restart.service _ _ _ _));
    try (vm_compute; reflexivity);
    intros [k Hk]; vm_compute in Hk; discriminate Hk.
Defined.

(** ** A file in the way *)

Lemma mkdirs_blocked (rest pre : list string) (m : tree) (n : nat)
    (d : string) :
  n < length rest →
  m !! (pre ++ take (S n) rest) = Some (File d) →
  (Fs.mkdirs pre rest m).2 = false.
Proof.
  revert pre m n. induction rest as [|s rest IH]; intros pre m n Hn Hm.
  { simpl in Hn. lia. }
  simpl. destruct n as [|n].
  - change (take 1 (s :: rest)) with (s :: take 0 rest) in Hm.
    rewrite take_0 in Hm. by rewrite Hm.
  - simpl in Hn.
    assert (pre ++ take (S (S n)) (s :: rest)
            = (pre ++ [s]) ++ take (S n) rest) as E
      by (by rewrite <- app_assoc).
    rewrite E in Hm.
    assert (pre ++ [s] ≠ (pre ++ [s]) ++ take (S n) rest) as Ne.
    { intros Heq. apply (f_equal length) in Heq.
      rewrite !length_app, length_take in Heq. lia. }
    destruct (m !! (pre ++ [s])) as [[|d']|]; [|done|].
    + apply (IH _ _ n); [lia|done].
    + apply (IH _ _ n); [lia|]. by rewrite lookup_insert_ne.
Qed.

(** X18: a regular file in the way of the data directory rejects the call
    at its first step: nothing is checked, fetched, unpacked or spawned,
    the only call made is the [mkdirp] of the data directory, and the file
    system holds exactly what [mkdirp] left. *)
Theorem X18_blocked_data_directory_rejects_first
    (h : host) (formula : Formula.t) (opts : options) (p : paths)
    (w : World) (n : nat) (d : string) :
  planned h formula opts = Some p →
  n < length (Path.key (dataDir p)) →
  w_fs w !! take (S n) (Path.key (dataDir p)) = Some (File d) →
  let out := startMongo h formula opts w in
  out.2 = inl (FsError "mkdirp" (dataDir p))
  ∧ w_trace out.1 = w_trace w ++ [EvMkdirp (dataDir p)]
  ∧ w_fs out.1 !! take (S n) (Path.key (dataDir p)) = Some (File d)
  ∧ same_handles w out.1.
Proof.
  intros Hp Hn Hm out. subst out. unfold planned in Hp. unfold startMongo.
  destruct (findPlatform formula (applyDefaults h formula opts))
    as [platform|]; [|done].
  destruct (resolvePaths (cwd h) formula platform
              (applyDefaults h formula opts)) as [e|q]; [done|].
  injection Hp as ->. steps.
  pose proof (mkdirp_trace (dataDir p) w) as T.
  pose proof (mkdirp_handles (dataDir p) w) as Hh.
  assert ((mkdirp (dataDir p) w).2 = inl (FsError "mkdirp" (dataDir p))
          ∧ w_fs (mkdirp (dataDir p) w).1
              !! take (S n) (Path.key (dataDir p)) = Some (File d))
    as [R K].
  { unfold mkdirp. steps.
    pose proof (mkdirs_blocked (Path.key (dataDir p)) [] (w_fs w) n d Hn Hm)
      as B.
    pose proof (mkdirs_keeps (Path.key (dataDir p)) [] (w_fs w) _ _ Hm) as K.
    destruct (Fs.mkdirs [] (Path.key (dataDir p)) (w_fs w)) as [m ok].
    simpl in *. by subst ok. }
  destruct (mkdirp (dataDir p) w) as [w1 r]. simpl in *. by subst r.
Qed.

Lemma X18_witness :
  (startMongo Sample.online Sample.formula ∅
     (set_fs {[ ["tmp"; "mongo"; "data"] := File "not a directory" ]}
        Sample.empty)).2
  = inl (FsError "mkdirp" "/tmp/mongo/data/default/mongodb").
Proof.
  refine (proj1 (X18_blocked_data_directory_rejects_first Sample.online
                   Sample.formula ∅ Sample.layout
                   (set_fs {[ ["tmp"; "mongo"; "data"]
                              := File "not a directory" ]} Sample.empty)
                   2 "not a directory" _ _ _)).
  - vm_compute. reflexivity.
  - vm_compute. lia.
  - vm_compute. reflexivity.
Defined.
